(** * gpt_poker_server.py: prompt builder and completion relay

    A shallow embedding of [build_gto_prompt] and of the [/gto_tip] handler.
    The handler receives a decoded JSON document, so the values below are the
    Python objects that [json] decoding produces, and every Python operation
    that may raise is modelled as a function into [result]. *)

From Stdlib Require Import String Ascii List ZArith Lia Bool QArith.
From Stdlib Require Import DecimalString.
From Stdlib Require Floats.SpecFloat.
Import ListNotations.

Local Open Scope string_scope.
Local Open Scope Z_scope.

(** ** Exceptions and the error monad *)

Inductive exn : Type :=
| AttributeError
| TypeError
| KeyError
| IndexError
| UnboundLocalError
| BadRequest
| ConnectionError
| HTTPError
| JSONDecodeError.

Inductive result (A : Type) : Type :=
| Ok (a : A)
| Raise (e : exn).

Arguments Ok {A} a.
Arguments Raise {A} e.

Definition bind {A B : Type} (m : result A) (k : A -> result B) : result B :=
  match m with
  | Ok a => k a
  | Raise e => Raise e
  end.

Notation "x <- m ;; k" := (bind m (fun x => k))
  (at level 61, m at next level, right associativity).
Notation "' pat <- m ;; k" := (bind m (fun x => match x with pat => k end))
  (at level 61, pat pattern, m at next level, right associativity).

(** ** Python values obtained by decoding JSON *)

#[local] Set Warnings "-register-all".

Inductive pyval : Type :=
| PNone
| PBool (b : bool)
| PInt (z : Z)
| PFloat (f : SpecFloat.spec_float)
| PStr (s : string)
| PList (l : list pyval)
| PDict (kvs : list (string * pyval)).

(** Truth value of an object, as tested by [or], [if] and [not]. *)
Definition truthy (v : pyval) : bool :=
  match v with
  | PNone => false
  | PBool b => b
  | PInt z => negb (z =? 0)
  | PFloat (SpecFloat.S754_zero _) => false
  | PFloat _ => true
  | PStr s => negb (s =? "")%string
  | PList l => match l with [] => false | _ => true end
  | PDict kvs => match kvs with [] => false | _ => true end
  end.

(** [a or b] *)
Definition py_or (a b : pyval) : pyval := if truthy a then a else b.

Fixpoint lookup (k : string) (kvs : list (string * pyval)) : option pyval :=
  match kvs with
  | [] => None
  | (k', v) :: rest => if (k =? k')%string then Some v else lookup k rest
  end.

(** [d.get(k, default)]; only a dict has the method. *)
Definition py_get (d : pyval) (k : string) (default : pyval) : result pyval :=
  match d with
  | PDict kvs => Ok (match lookup k kvs with Some v => v | None => default end)
  | _ => Raise AttributeError
  end.

(** ** Strings

    A [string] stands for a Python [str] whose characters are the code
    points below 256, one [ascii] per character. *)

(** [str.isspace] on one character of that range. *)
Definition isspace (c : ascii) : bool :=
  let n := nat_of_ascii c in
  ((9 <=? n) && (n <=? 13) || (28 <=? n) && (n <=? 32)
   || (n =? 133) || (n =? 160))%nat.

Fixpoint lstrip (s : string) : string :=
  match s with
  | EmptyString => EmptyString
  | String c s' => if isspace c then lstrip s' else s
  end.

Fixpoint rstrip (s : string) : string :=
  match s with
  | EmptyString => EmptyString
  | String c s' =>
      match rstrip s' with
      | EmptyString => if isspace c then EmptyString else String c EmptyString
      | r => String c r
      end
  end.

(** [s.strip()] *)
Definition strip (s : string) : string := rstrip (lstrip s).

(** [s.replace(old, new)]: [go] scans left to right, [skip] counts the
    characters of a match that are still to be dropped. *)
Fixpoint replace_go (old new : string) (skip : nat) (s : string) : string :=
  match s with
  | EmptyString => EmptyString
  | String c s' =>
      match skip with
      | S k => replace_go old new k s'
      | O =>
          if prefix old s
          then new ++ replace_go old new (String.length old - 1) s'
          else String c (replace_go old new O s')
      end
  end.

Fixpoint intersperse_all (new : string) (s : string) : string :=
  match s with
  | EmptyString => new
  | String c s' => new ++ String c (intersperse_all new s')
  end.

Definition replace (old new s : string) : string :=
  match old with
  | EmptyString => intersperse_all new s
  | _ => replace_go old new O s
  end.

(** [old in s] *)
Fixpoint contains (old s : string) : bool :=
  prefix old s
  || match s with
     | EmptyString => false
     | String _ s' => contains old s'
     end.

(** [sep.join(items)] for items already known to be strings. *)
Fixpoint join (sep : string) (items : list string) : string :=
  match items with
  | [] => ""
  | [x] => x
  | x :: rest => x ++ sep ++ join sep rest
  end.

(** [s[-1]], which raises on the empty string. *)
Fixpoint last_char (s : string) : result string :=
  match s with
  | EmptyString => Raise IndexError
  | String c EmptyString => Ok (String c EmptyString)
  | String _ s' => last_char s'
  end.

(** [s[:-1]] *)
Fixpoint drop_last (s : string) : string :=
  match s with
  | EmptyString => EmptyString
  | String _ EmptyString => EmptyString
  | String c s' => String c (drop_last s')
  end.

Definition chars (s : string) : list string :=
  map (fun c => String c EmptyString) (list_ascii_of_string s).

Definition str_of_nat (n : nat) : string :=
  NilZero.string_of_uint (Nat.to_uint n).

Definition str_of_Z (z : Z) : string :=
  NilZero.string_of_int (Z.to_int z).


(** ** Sequence operations on decoded values *)

(** Iteration, as done by [join], [enumerate] and [for]: a list yields its
    entries, a str its characters, a dict its keys; nothing else iterates. *)
Definition py_iter (v : pyval) : result (list pyval) :=
  match v with
  | PList l => Ok l
  | PStr s => Ok (map PStr (chars s))
  | PDict kvs => Ok (map (fun kv => PStr (fst kv)) kvs)
  | _ => Raise TypeError
  end.

Fixpoint all_str (items : list pyval) : result (list string) :=
  match items with
  | [] => Ok []
  | PStr s :: rest => strs <- all_str rest ;; Ok (s :: strs)
  | _ :: _ => Raise TypeError
  end.

(** The entries [sep.join(v)] concatenates: every one must be a str. *)
Definition str_items (v : pyval) : result (list string) :=
  items <- py_iter v ;; all_str items.

(** [sep.join(v)] *)
Definition py_join (sep : string) (v : pyval) : result string :=
  strs <- str_items v ;; Ok (join sep strs).

(** [v[i]] for a non-negative integer [i]. A decoded dict has str keys only,
    so an integer subscript is a missing key. *)
Definition py_item (v : pyval) (i : nat) : result pyval :=
  match v with
  | PList l =>
      match nth_error l i with Some x => Ok x | None => Raise IndexError end
  | PStr s =>
      match nth_error (chars s) i with
      | Some c => Ok (PStr c)
      | None => Raise IndexError
      end
  | PDict _ => Raise KeyError
  | _ => Raise TypeError
  end.

(** [len(v)] *)
Definition py_len (v : pyval) : result nat :=
  match v with
  | PList l => Ok (List.length l)
  | PStr s => Ok (String.length s)
  | PDict kvs => Ok (List.length kvs)
  | _ => Raise TypeError
  end.

(** [v != "unknown"]: comparing with a str never raises. *)
Definition differs_from (v : pyval) (s : string) : bool :=
  match v with
  | PStr s' => negb (s' =? s)%string
  | _ => true
  end.

(** [hand[i]] as a card token. Where it is used the entries of [hand] are
    str objects: [join] has accepted them, or [hand] itself is a str. *)
Definition card_at (hand : pyval) (i : nat) : result string :=
  v <- py_item hand i ;;
  match v with
  | PStr s => Ok s
  | _ => Raise TypeError
  end.

(** [hand + community] followed by the iteration over the cards. [hand] is
    a list or a str at that point, and [+] accepts only an operand of the
    same type. *)
Definition all_cards (hand community : pyval) : result (list string) :=
  match hand, community with
  | PList h, PList c => all_str (h ++ c)
  | PStr h, PStr c => Ok (chars (h ++ c))
  | _, _ => Raise TypeError
  end.

(** ** The prompt builder *)

Definition rank_values : list (string * Z) :=
  [("2", 2); ("3", 3); ("4", 4); ("5", 5); ("6", 6); ("7", 7); ("8", 8);
   ("9", 9); ("10", 10); ("J", 11); ("Q", 12); ("K", 13); ("A", 14)].

(** [rank_values.get(rank, 0)] *)
Fixpoint rank_get (rank : string) (table : list (string * Z)) : Z :=
  match table with
  | [] => 0
  | (k, v) :: rest => if (rank =? k)%string then v else rank_get rank rest
  end.

(** The locals set by the hand analysis; [is_connected] is bound only inside
    the branch for two known cards. *)
Record hand_facts : Type := {
  hand_str : string;
  hand_type : string;
  hand_strength : string;
  is_connected : option bool
}.

(** Lines 41-59: the branch taken for two known hole cards. *)
Definition classify (hand : pyval) : result (string * string * bool) :=
  c1 <- card_at hand 0 ;;
  c2 <- card_at hand 1 ;;
  let rank1 := drop_last c1 in
  let rank2 := drop_last c2 in
  suit1 <- last_char c1 ;;
  suit2 <- last_char c2 ;;
  let is_suited := (suit1 =? suit2)%string in
  let hand_type := if is_suited then "suited" else "offsuit" in
  let r1 := rank_get rank1 rank_values in
  let r2 := rank_get rank2 rank_values in
  let gap := Z.abs (r1 - r2) in
  let is_connected := gap <=? 2 in
  let high_rank := Z.max r1 r2 in
  let hand_strength :=
    if (high_rank >=? 12) || (is_suited && is_connected) then "strong"
    else if (high_rank >=? 9) || (is_connected && (gap <=? 1)) then "medium"
    else "weak" in
  Ok (hand_type, hand_strength, is_connected).

(** [len(hand) == 2 and hand[0] != "unknown"] *)
Definition two_known (hand : pyval) : result bool :=
  n <- py_len hand ;;
  if (n =? 2)%nat
  then first <- py_item hand 0 ;; Ok (differs_from first "unknown")
  else Ok false.

(** Lines 37-59. *)
Definition analyze_hand (hand : pyval) : result hand_facts :=
  first <- py_item hand 0 ;;
  hand_str <- (if differs_from first "unknown"
               then py_join ", " hand else Ok "unknown") ;;
  known <- two_known hand ;;
  if known
  then '(hand_type, hand_strength, is_connected) <- classify hand ;;
       Ok {| hand_str := hand_str; hand_type := hand_type;
             hand_strength := hand_strength;
             is_connected := Some is_connected |}
  else Ok {| hand_str := hand_str; hand_type := "unknown";
             hand_strength := "unknown"; is_connected := None |}.

(** [suit_counts[suit] = suit_counts.get(suit, 0) + 1] on a dict, which keeps
    its keys in insertion order. *)
Fixpoint bump (suit : string) (suit_counts : list (string * nat))
  : list (string * nat) :=
  match suit_counts with
  | [] => [(suit, 1%nat)]
  | (s, n) :: rest =>
      if (s =? suit)%string then (s, S n) :: rest
      else (s, n) :: bump suit rest
  end.

Fixpoint count_suits (cards : list string) (suit_counts : list (string * nat))
  : result (list (string * nat)) :=
  match cards with
  | [] => Ok suit_counts
  | card :: rest =>
      suit <- last_char card ;;
      count_suits rest (bump suit suit_counts)
  end.

(** [max(suit_counts.values(), default=0)] *)
Definition max_count (suit_counts : list (string * nat)) : nat :=
  fold_right Nat.max 0%nat (map snd suit_counts).

(** Line 71: the first suit that reaches the maximum, or [None]. *)
Definition pick_flush_suit (suit_counts : list (string * nat)) (m : nat)
  : result (option string) :=
  if (3 <=? m)%nat
  then match filter (fun sc => (snd sc =? m)%nat) suit_counts with
       | sc :: _ => Ok (Some (fst sc))
       | [] => Raise IndexError
       end
  else Ok None.

(** Truth value of [flush_suit], a str or [None]. *)
Definition suit_truthy (flush_suit : option string) : bool :=
  match flush_suit with
  | Some s => negb (s =? "")%string
  | None => false
  end.

(** Line 75: [hand[0][-1] == flush_suit or hand[1][-1] == flush_suit]. *)
Definition holds_suit (hand : pyval) (suit : string) : result bool :=
  c1 <- card_at hand 0 ;;
  s1 <- last_char c1 ;;
  if (s1 =? suit)%string then Ok true
  else c2 <- card_at hand 1 ;;
       s2 <- last_char c2 ;;
       Ok (s2 =? suit)%string.

(** Lines 65-76: the body of the flush analysis. *)
Definition flush_text (hand community : pyval) : result string :=
  cards <- all_cards hand community ;;
  suit_counts <- count_suits cards [] ;;
  let max_suit_count := max_count suit_counts in
  flush_suit <- pick_flush_suit suit_counts max_suit_count ;;
  let flush_potential :=
    match flush_suit with
    | Some s =>
        if suit_truthy flush_suit && (4 <=? max_suit_count)%nat
        then "flush draw with " ++ str_of_nat max_suit_count ++ " " ++ s
             ++ " cards"
        else "none"
    | None => "none"
    end in
  match flush_suit with
  | Some s =>
      if suit_truthy flush_suit
      then mine <- holds_suit hand s ;;
           Ok (if mine then "you have a " ++ flush_potential
               else flush_potential)
      else Ok flush_potential
  | None => Ok flush_potential
  end.

(** Lines 62-76: [community_str] and [flush_potential]. *)
Definition analyze_community (hand community : pyval)
  : result (string * string) :=
  community_str <- (if truthy community then py_join ", " community
                    else Ok "none") ;;
  if truthy community
  then known <- two_known hand ;;
       if known
       then flush_potential <- flush_text hand community ;;
            Ok (community_str, flush_potential)
       else Ok (community_str, "none")
  else Ok (community_str, "none").

(** The default of line 26 for a missing or empty hand. *)
Definition sentinel : pyval := PList [PStr "unknown"; PStr "unknown"].

Section Rendering.

(** [str] of a float, a list or a dict. The text these builtins produce is
    not fixed by the source; they are total on decoded values. *)
Variable repr_other : pyval -> string.

(** [str(v)], as applied by an f-string. *)
Definition py_str (v : pyval) : string :=
  match v with
  | PNone => "None"
  | PBool true => "True"
  | PBool false => "False"
  | PInt z => str_of_Z z
  | PStr s => s
  | PFloat _ | PList _ | PDict _ => repr_other v
  end.

(** Lines 82-84: the loop over [enumerate(opponent_actions)]. *)
Fixpoint format_loop (i : nat) (actions : list pyval)
  (formatted_actions : list string) : list string :=
  match actions with
  | [] => formatted_actions
  | action :: rest =>
      format_loop (S i) rest
        (if truthy action
         then formatted_actions
                ++ ["Player " ++ str_of_nat i ++ ": " ++ py_str action]
         else formatted_actions)
  end.

(** Lines 79-85. *)
Definition format_opponent_actions (opponent_actions : pyval)
  : result string :=
  if truthy opponent_actions
  then actions <- py_iter opponent_actions ;;
       let formatted_actions := format_loop 0 actions [] in
       Ok (match formatted_actions with
           | [] => "None"
           | _ => join "; " formatted_actions
           end)
  else Ok "None".

Definition nl : string := String (ascii_of_nat 10) EmptyString.

(** Lines 88-105: the f-string. Reading [is_connected] while it is unbound
    raises. *)
Definition template (facts : hand_facts)
  (community_str flush_potential opponent_actions_str : string)
  (stage position pot chips current_bet num_players : pyval)
  : result string :=
  match is_connected facts with
  | None => Raise UnboundLocalError
  | Some connected =>
      Ok ("/no_think" ++ nl
          ++ "You are a GTO (Game Theory Optimal) poker coach for No-Limit Hold'em with "
          ++ py_str num_players ++ " players." ++ nl
          ++ "Game state:" ++ nl
          ++ "- Your hand: " ++ hand_str facts ++ " (" ++ hand_type facts
          ++ ", " ++ hand_strength facts ++ " "
          ++ (if connected then "connector" else "non-connector") ++ ")" ++ nl
          ++ "- Community cards: " ++ community_str
          ++ " (" ++ flush_potential ++ ")" ++ nl
          ++ "- Stage: " ++ py_str stage ++ nl
          ++ "- Position: " ++ py_str position ++ nl
          ++ "- Pot size: " ++ py_str pot ++ nl
          ++ "- Your chips: " ++ py_str chips ++ nl
          ++ "- Opponent actions: " ++ opponent_actions_str ++ nl
          ++ "- Current bet to call: " ++ py_str current_bet ++ nl
          ++ "- Number of players: " ++ py_str num_players ++ nl
          ++ "Provide a **short, single-sentence tip** on the best play: bet, call, raise, or fold." ++ nl
          ++ "Calculate pot odds and explain how they apply to the current scenario." ++ nl
          ++ "Explain the reason for the tip, considering hand strength, position, and number of opponents." ++ nl
          ++ "If raising, specify how you determined the raise amount." ++ nl
          ++ "Explain any poker jargon used in simple terms." ++ nl
          ++ "/no_think")
  end.

Definition build_gto_prompt (data : pyval) : result string :=
  h <- py_get data "hand" (PList []) ;;
  let hand := py_or h sentinel in
  c <- py_get data "community" (PList []) ;;
  let community := py_or c (PList []) in
  o <- py_get data "opponent_actions" (PList []) ;;
  let opponent_actions := py_or o (PList []) in
  pot <- py_get data "pot" (PInt 0) ;;
  chips <- py_get data "chips" (PInt 0) ;;
  stage <- py_get data "stage" (PStr "Unknown") ;;
  position <- py_get data "position" (PStr "SB") ;;
  current_bet <- py_get data "current_bet" (PInt 0) ;;
  num_players <- py_get data "num_players" (PInt 2) ;;
  facts <- analyze_hand hand ;;
  '(community_str, flush_potential) <- analyze_community hand community ;;
  opponent_actions_str <- format_opponent_actions opponent_actions ;;
  prompt <- template facts community_str flush_potential
              opponent_actions_str stage position pot chips current_bet
              num_players ;;
  Ok (strip prompt).

End Rendering.

(** A renderer for the examples below, none of which prints a float, a list
    or a dict. *)
Definition no_repr (v : pyval) : string := "".


(** ** The completion relay *)

Definition SERVER_URL : string := "http://127.0.0.1:5000/v1/completions".
Definition GPT_MODEL : string := "Qwen3-14B-Q6_K.gguf".

Record payload : Type := {
  model : string;
  prompt : string;
  max_tokens : Z;
  temperature : Q
}.

(** What the handler reads of a [requests] response: the status code and the
    decoded body, absent when the body is not JSON. *)
Record response : Type := {
  status_code : Z;
  json_body : option pyval
}.

(** [response.raise_for_status()]: [requests] raises on a 4xx or 5xx code. *)
Definition raise_for_status (r : response) : result unit :=
  if (400 <=? status_code r) && (status_code r <? 600)
  then Raise HTTPError else Ok tt.

(** [response.json()] *)
Definition response_json (r : response) : result pyval :=
  match json_body r with
  | Some v => Ok v
  | None => Raise JSONDecodeError
  end.

(** Line 130: [raw_output.get("choices", [{}])[0].get("text", "").strip()];
    only a str has [strip]. *)
Definition extract_tip (raw_output : pyval) : result string :=
  choices <- py_get raw_output "choices" (PList [PDict []]) ;;
  first <- py_item choices 0 ;;
  text <- py_get first "text" (PStr "") ;;
  match text with
  | PStr s => Ok (strip s)
  | _ => Raise AttributeError
  end.

Definition tags_to_remove : list string :=
  ["/think"; "</think>"; "/no_think"; "<"; ">"].

(** Lines 134-135: the loop over the tags. *)
Definition strip_tags (tip : string) : string :=
  fold_left (fun tip tag => strip (replace tag "" tip)) tags_to_remove tip.

(** Lines 131-135. *)
Definition clean_tip (tip : string) : string :=
  strip_tags (if (tip =? "")%string then "No tip generated." else tip).

(** A reply of the handler: status code and the object given to [jsonify]. *)
Record reply : Type := {
  code : Z;
  body : list (string * pyval)
}.

Definition tip_reply (tip : string) : reply :=
  {| code := 200; body := [("gto_tip", PStr tip)] |}.

Definition error_reply : reply :=
  {| code := 500; body := [("tip", PStr "Error generating tip")] |}.

(** Lines 118-123. *)
Definition mk_payload (prompt : string) : payload :=
  {| model := GPT_MODEL; prompt := prompt;
     max_tokens := 500; temperature := (3 # 10)%Q |}.

Section Relay.

Variable repr_other : pyval -> string.

(** [requests.post(url, headers=HEADERS, json=payload)], which raises when
    the backend cannot be reached. *)
Variable post : string -> payload -> result response.

(** Lines 114-136, the body of the [try]; [get_json] is the outcome of
    [request.get_json()]. The logging calls do not change the result. *)
Definition gto_tip_body (get_json : result pyval) : result string :=
  data <- get_json ;;
  prompt <- build_gto_prompt repr_other data ;;
  response <- post SERVER_URL (mk_payload prompt) ;;
  _ <- raise_for_status response ;;
  raw_output <- response_json response ;;
  tip <- extract_tip raw_output ;;
  Ok (clean_tip tip).

(** The handler: [except Exception] turns every exception into one
    fixed reply. *)
Definition gto_tip (get_json : result pyval) : reply :=
  match gto_tip_body get_json with
  | Ok tip => tip_reply tip
  | Raise _ => error_reply
  end.

End Relay.

(** ** The rules as the specification words them *)

(** Rank text and suit of a token [<rank><suit>]: the suit is the trailing
    character. *)
Definition spec_rank_text (tok : string) : string :=
  substring 0 (String.length tok - 1) tok.

Definition spec_suit (tok : string) : string :=
  substring (String.length tok - 1) 1 tok.

(** A card token whose rank is one of 2..10, J, Q, K, A. *)
Definition known_card (tok : string) : bool :=
  existsb (fun kv => (spec_rank_text tok =? fst kv)%string) rank_values.

(** Strength, first match wins. *)
Definition spec_strength (suited : bool) (rank1 rank2 : Z) : string :=
  let gap := Z.abs (rank1 - rank2) in
  let highRank := Z.max rank1 rank2 in
  if (12 <=? highRank) || (suited && (gap <=? 2)) then "strong"
  else if (9 <=? highRank) || (gap <=? 1) then "medium"
  else "weak".

(** Opponent actions: one entry for each indexed non-empty action. *)
Definition spec_entries (actions : list string) : list string :=
  map (fun ia => "Player " ++ str_of_nat (fst ia) ++ ": " ++ snd ia)
    (filter (fun ia => negb (snd ia =? "")%string)
       (combine (seq 0 (List.length actions)) actions)).

Definition spec_opponent_actions (actions : list string) : string :=
  match spec_entries actions with
  | [] => "None"
  | entries => join "; " entries
  end.

(** Text with none of the tags and no white space at either end. *)
Definition no_tags (s : string) : bool :=
  forallb (fun tag => negb (contains tag s)) tags_to_remove.

Definition trimmed (s : string) : bool :=
  match s with
  | EmptyString => true
  | String c _ =>
      negb (isspace c)
      && match last_char s with
         | Ok (String d _) => negb (isspace d)
         | _ => true
         end
  end.


(** The value line 26 binds to [hand]. *)
Definition hand_of (kvs : list (string * pyval)) : pyval :=
  py_or (match lookup "hand" kvs with Some v => v | None => PList [] end)
    sentinel.

(** The values lines 27 and 28 bind to [community] and
    [opponent_actions]. *)
Definition community_of (kvs : list (string * pyval)) : pyval :=
  py_or (match lookup "community" kvs with Some v => v | None => PList [] end)
    (PList []).

Definition opponents_of (kvs : list (string * pyval)) : pyval :=
  py_or (match lookup "opponent_actions" kvs with
         | Some v => v
         | None => PList []
         end)
    (PList []).

(** The suits of the cards in order, each read as [card[-1]]. *)
Fixpoint suits_of (cards : list string) : result (list string) :=
  match cards with
  | [] => Ok []
  | card :: rest =>
      suit <- last_char card ;;
      suits <- suits_of rest ;;
      Ok (suit :: suits)
  end.

(** How often [x] occurs in [l], and whether it occurs at all. *)
Definition occurrences (x : string) (l : list string) : nat :=
  List.length (filter (String.eqb x) l).

Definition mem (x : string) (l : list string) : bool :=
  existsb (String.eqb x) l.

(** The distinct entries of [l] in the order of their first appearance. *)
Fixpoint first_seen (l : list string) : list string :=
  match l with
  | [] => []
  | x :: rest => x :: filter (fun y => negb (y =? x)%string) (first_seen rest)
  end.

(** The counting loop of lines 67-69 on suits already read. *)
Definition tally (suits : list string) (suit_counts : list (string * nat))
  : list (string * nat) :=
  fold_left (fun counts suit => bump suit counts) suits suit_counts.

(** The entry line 84 appends for the action at index [fst ia]. *)
Definition action_entry (repr_other : pyval -> string) (ia : nat * pyval)
  : string :=
  "Player " ++ str_of_nat (fst ia) ++ ": " ++ py_str repr_other (snd ia).

(** Whether the character [c] occurs in [s]. *)
Fixpoint has_char (c : ascii) (s : string) : bool :=
  match s with
  | EmptyString => false
  | String d s' => (if ascii_dec c d then true else false) || has_char c s'
  end.

(** [data.get(key, default)] for the scalar fields of lines 29-34. *)
Definition field_of (kvs : list (string * pyval)) (key : string)
  (default : pyval) : pyval :=
  match lookup key kvs with Some v => v | None => default end.

(** ** Inputs used in the examples *)

(** A backend that answers every request with status 200 and [raw_output]. *)
Definition answering (raw_output : pyval)
  : string -> payload -> result response :=
  fun _ _ => Ok {| status_code := 200; json_body := Some raw_output |}.

Definition two_aces : pyval :=
  PDict [("hand", PList [PStr "As"; PStr "Ah"])].

(** A backend answer with a usable first choice, and a backend that sends
    it under status 302, on which [raise_for_status] is silent. *)
Definition fold_answer : pyval :=
  PDict [("choices", PList [PDict [("text", PStr "Fold here.")]])].

Definition found_elsewhere : string -> payload -> result response :=
  fun _ _ => Ok {| status_code := 302; json_body := Some fold_answer |}.

(** * Properties *)

(** ** Strings *)

Lemma contains_cons (old : string) (c : ascii) (s : string) :
  contains old (String c s) = prefix old (String c s) || contains old s.
Proof. reflexivity. Qed.

Lemma replace_go_absent (old s : string) :
  contains old s = false -> replace_go old "" 0 s = s.
Proof.
  induction s as [| c s IH]; intro H.
  - reflexivity.
  - rewrite contains_cons in H.
    apply orb_false_iff in H as [Hp Hc].
    cbn [replace_go]. rewrite Hp. f_equal. now apply IH.
Qed.

Lemma replace_absent (old s : string) :
  contains old s = false -> replace old "" s = s.
Proof.
  destruct old as [| a old'].
  - destruct s; discriminate.
  - intro H. unfold replace. now apply replace_go_absent.
Qed.

Lemma rstrip_fixed (s : string) :
  match last_char s with
  | Ok (String d _) => negb (isspace d)
  | _ => true
  end = true ->
  rstrip s = s.
Proof.
  induction s as [| c s IH].
  - reflexivity.
  - destruct s as [| c' s'].
    + cbn. intro H. apply negb_true_iff in H. now rewrite H.
    + intro H. change (last_char (String c (String c' s')))
        with (last_char (String c' s')) in H.
      specialize (IH H).
      change (rstrip (String c (String c' s')))
        with (match rstrip (String c' s') with
              | EmptyString =>
                  if isspace c then EmptyString else String c EmptyString
              | r => String c r
              end).
      now rewrite IH.
Qed.

Lemma strip_trimmed (s : string) : trimmed s = true -> strip s = s.
Proof.
  destruct s as [| c s]; [reflexivity |].
  unfold trimmed. intro H. apply andb_true_iff in H as [Hc Hl].
  apply negb_true_iff in Hc.
  unfold strip. cbn [lstrip]. rewrite Hc. now apply rstrip_fixed.
Qed.

Lemma strip_tags_unfold (tip : string) :
  strip_tags tip =
  strip (replace ">" ""
    (strip (replace "<" ""
      (strip (replace "/no_think" ""
        (strip (replace "</think>" ""
          (strip (replace "/think" "" tip))))))))).
Proof. reflexivity. Qed.

Lemma strip_tags_clean (s : string) :
  no_tags s = true -> trimmed s = true -> strip_tags s = s.
Proof.
  intros Hn Ht. rewrite strip_tags_unfold.
  unfold no_tags, tags_to_remove in Hn. cbn [forallb] in Hn.
  repeat (apply andb_true_iff in Hn as [?H Hn]).
  repeat match goal with
         | H : negb (contains _ _) = true |- _ => apply negb_true_iff in H
         end.
  rewrite (replace_absent "/think" s), (strip_trimmed s Ht) by assumption.
  rewrite (replace_absent "</think>" s), (strip_trimmed s Ht) by assumption.
  rewrite (replace_absent "/no_think" s), (strip_trimmed s Ht) by assumption.
  rewrite (replace_absent "<" s), (strip_trimmed s Ht) by assumption.
  rewrite (replace_absent ">" s) by assumption.
  exact (strip_trimmed s Ht).
Qed.

(** C9: on text that contains none of the tags [/think], [</think>],
    [/no_think], [<], [>] and has no white space at either end, the
    tag-stripping-and-trim loop returns the text unchanged, so running it
    twice gives the same as running it once. *)
Theorem strip_tags_idempotent_on_clean_text (s : string) :
  no_tags s = true -> trimmed s = true ->
  strip_tags s = s /\ strip_tags (strip_tags s) = strip_tags s.
Proof.
  intros Hn Ht.
  assert (E : strip_tags s = s) by now apply strip_tags_clean.
  split; [exact E | now rewrite E].
Qed.

Lemma strip_tags_idempotent_on_clean_text_witness :
  strip_tags "Fold here." = "Fold here."
  /\ strip_tags (strip_tags "Fold here.") = strip_tags "Fold here.".
Proof.
  exact (strip_tags_idempotent_on_clean_text "Fold here." eq_refl eq_refl).
Defined.

(** The placeholder substitution leaves non-empty clean text alone as well. *)
Lemma clean_tip_clean (s : string) :
  s <> "" -> no_tags s = true -> trimmed s = true -> clean_tip s = s.
Proof.
  intros Hs Hn Ht. unfold clean_tip.
  destruct (String.eqb_spec s ""); [contradiction |].
  now apply strip_tags_clean.
Qed.

(** ** Opponent actions *)

Section OpponentActions.

Variable repr_other : pyval -> string.

Let entry (ia : nat * string) : string :=
  "Player " ++ str_of_nat (fst ia) ++ ": " ++ snd ia.

Let nonempty (ia : nat * string) : bool := negb (snd ia =? "")%string.

Lemma format_loop_entries (actions : list string) :
  forall (i : nat) (formatted : list string),
    format_loop repr_other i (map PStr actions) formatted
    = (formatted
        ++ map entry
             (filter nonempty
                (combine (seq i (List.length actions)) actions)))%list.
Proof.
  induction actions as [| a actions IH]; intros i formatted.
  - cbn. now rewrite app_nil_r.
  - cbn [map format_loop List.length seq combine filter].
    rewrite IH. unfold nonempty at 2. cbn [snd truthy py_str].
    destruct (a =? "")%string; cbn [negb].
    + reflexivity.
    + rewrite <- app_assoc. reflexivity.
Qed.

Lemma format_opponent_actions_strings (actions : list string) :
  format_opponent_actions repr_other (PList (map PStr actions))
  = Ok (spec_opponent_actions actions).
Proof.
  destruct actions as [| a actions]; [reflexivity |].
  unfold format_opponent_actions.
  change (truthy (PList (map PStr (a :: actions)))) with true.
  cbn [py_iter bind]. rewrite format_loop_entries. cbn [app].
  unfold spec_opponent_actions, spec_entries.
  now destruct (map _ _).
Qed.

End OpponentActions.

(** C7: for every list of opponent actions the formatted string lists
    ["Player {index}: {action}"] for each non-empty entry under its original
    index, joined with ["; "], and is ["None"] when no entry is non-empty;
    [["raise"; ""; "call"]] gives ["Player 0: raise; Player 2: call"]. *)
Theorem format_opponent_actions_spec :
  forall (repr_other : pyval -> string) (actions : list string),
    format_opponent_actions repr_other (PList (map PStr actions))
    = Ok (spec_opponent_actions actions)
    /\ format_opponent_actions repr_other (PList [PStr ""; PStr ""])
       = Ok "None"
    /\ format_opponent_actions repr_other
         (PList [PStr "raise"; PStr ""; PStr "call"])
       = Ok "Player 0: raise; Player 2: call".
Proof.
  intros repr_other actions. split; [| split].
  - apply format_opponent_actions_strings.
  - reflexivity.
  - reflexivity.
Qed.

(** ** Hand classification *)

Lemma drop_last_spec (s : string) : drop_last s = spec_rank_text s.
Proof.
  unfold spec_rank_text.
  induction s as [| c s IH]; [reflexivity |].
  destruct s as [| c' s']; [reflexivity |].
  change (drop_last (String c (String c' s')))
    with (String c (drop_last (String c' s'))).
  rewrite IH. cbn [String.length Nat.sub substring].
  now rewrite Nat.sub_0_r.
Qed.

Lemma last_char_spec (s : string) :
  s <> "" -> last_char s = Ok (spec_suit s).
Proof.
  unfold spec_suit.
  induction s as [| c s IH]; [contradiction |]. intros _.
  destruct s as [| c' s']; [reflexivity |].
  change (last_char (String c (String c' s')))
    with (last_char (String c' s')).
  rewrite IH by discriminate.
  cbn [String.length Nat.sub substring].
  now rewrite Nat.sub_0_r.
Qed.

Lemma known_card_rank (tok : string) :
  known_card tok = true ->
  2 <= rank_get (spec_rank_text tok) rank_values <= 14.
Proof.
  unfold known_card, rank_values. cbn [existsb fst]. intro H.
  repeat (apply orb_true_iff in H as [H | H]);
    try discriminate;
    apply String.eqb_eq in H; rewrite H; vm_compute; split; discriminate.
Qed.

Lemma known_card_nonempty (tok : string) : known_card tok = true -> tok <> "".
Proof. intros H E. subst tok. discriminate H. Qed.

Lemma known_card_not_sentinel (tok : string) :
  known_card tok = true -> (tok =? "unknown")%string = false.
Proof.
  intro H. destruct (String.eqb_spec tok "unknown") as [E |]; [| reflexivity].
  subst tok. discriminate H.
Qed.

Lemma strength_rule_agrees (suited : bool) (r1 r2 : Z) :
  (if (Z.max r1 r2 >=? 12) || (suited && (Z.abs (r1 - r2) <=? 2))
   then "strong"
   else if (Z.max r1 r2 >=? 9)
           || ((Z.abs (r1 - r2) <=? 2) && (Z.abs (r1 - r2) <=? 1))
        then "medium" else "weak")
  = spec_strength suited r1 r2.
Proof.
  unfold spec_strength. rewrite !Z.geb_leb.
  replace ((Z.abs (r1 - r2) <=? 2) && (Z.abs (r1 - r2) <=? 1))
    with (Z.abs (r1 - r2) <=? 1); [reflexivity |].
  destruct (Z.leb_spec (Z.abs (r1 - r2)) 1) as [H | H].
  - symmetry. rewrite andb_true_r. apply Z.leb_le. lia.
  - now rewrite andb_false_r.
Qed.

(** The branch for two known cards, on any two non-empty tokens. *)
Lemma classify_tokens (c1 c2 : string) :
  c1 <> "" -> c2 <> "" ->
  let r1 := rank_get (spec_rank_text c1) rank_values in
  let r2 := rank_get (spec_rank_text c2) rank_values in
  let suited := (spec_suit c1 =? spec_suit c2)%string in
  classify (PList [PStr c1; PStr c2])
  = Ok (if suited then "suited" else "offsuit",
        spec_strength suited r1 r2,
        Z.abs (r1 - r2) <=? 2).
Proof.
  intros H1 H2 r1 r2 suited. unfold classify.
  cbn [card_at py_item nth_error bind].
  rewrite (last_char_spec c1 H1), (last_char_spec c2 H2).
  cbn [bind]. rewrite !drop_last_spec.
  fold r1 r2 suited. now rewrite strength_rule_agrees.
Qed.

(** C5: for two known card tokens the strength is decided in order:
    strong iff highRank >= 12 or (suited and gap <= 2), else medium iff
    highRank >= 9 or gap <= 1, else weak; the rank is the token without its
    trailing suit character, ranks lie in 2..14 with A = 14, gap is the
    absolute difference and highRank the maximum. [As, Ks] is strong and
    suited, [7h, 2c] is weak. *)
Theorem hand_strength_rule (c1 c2 : string) :
  known_card c1 = true -> known_card c2 = true ->
  let rank1 := rank_get (spec_rank_text c1) rank_values in
  let rank2 := rank_get (spec_rank_text c2) rank_values in
  let suited := (spec_suit c1 =? spec_suit c2)%string in
  2 <= rank1 <= 14 /\ 2 <= rank2 <= 14
  /\ rank_get "A" rank_values = 14
  /\ analyze_hand (PList [PStr c1; PStr c2])
     = Ok {| hand_str := c1 ++ ", " ++ c2;
             hand_type := if suited then "suited" else "offsuit";
             hand_strength := spec_strength suited rank1 rank2;
             is_connected := Some (Z.abs (rank1 - rank2) <=? 2) |}
  /\ analyze_hand (PList [PStr "As"; PStr "Ks"])
     = Ok {| hand_str := "As, Ks"; hand_type := "suited";
             hand_strength := "strong"; is_connected := Some true |}
  /\ analyze_hand (PList [PStr "7h"; PStr "2c"])
     = Ok {| hand_str := "7h, 2c"; hand_type := "offsuit";
             hand_strength := "weak"; is_connected := Some false |}
  /\ (exists p,
         build_gto_prompt no_repr
           (PDict [("hand", PList [PStr "As"; PStr "Ks"])]) = Ok p
         /\ contains "- Your hand: As, Ks (suited, strong connector)" p
            = true)
  /\ (exists p,
         build_gto_prompt no_repr
           (PDict [("hand", PList [PStr "7h"; PStr "2c"])]) = Ok p
         /\ contains "- Your hand: 7h, 2c (offsuit, weak non-connector)" p
            = true).
Proof.
  intros K1 K2 rank1 rank2 suited.
  split; [now apply known_card_rank |].
  split; [now apply known_card_rank |].
  split; [reflexivity |].
  split;
    [| repeat split; try reflexivity;
       eexists; (split; [reflexivity | vm_compute; reflexivity])].
  unfold analyze_hand, two_known.
  cbn [py_item nth_error bind differs_from py_len List.length Nat.eqb].
  rewrite (known_card_not_sentinel c1 K1).
  cbn [negb py_join str_items py_iter all_str bind join].
  rewrite (classify_tokens c1 c2)
    by (now apply known_card_nonempty).
  reflexivity.
Qed.

Lemma hand_strength_rule_witness :
  analyze_hand (PList [PStr "10d"; PStr "9d"])
  = Ok {| hand_str := "10d, 9d"; hand_type := "suited";
          hand_strength := "strong"; is_connected := Some true |}.
Proof.
  exact (proj1 (proj2 (proj2 (proj2
           (hand_strength_rule "10d" "9d" eq_refl eq_refl))))).
Defined.

(** ** The unbound connector flag *)

Lemma analyze_hand_unbound (hand : pyval) (facts : hand_facts) :
  two_known hand = Ok false ->
  analyze_hand hand = Ok facts ->
  is_connected facts = None.
Proof.
  intros Hk. unfold analyze_hand.
  destruct (py_item hand 0) as [first | e]; cbn [bind]; [| discriminate].
  destruct (if differs_from first "unknown" then py_join ", " hand
            else Ok "unknown") as [hs | e]; cbn [bind]; [| discriminate].
  rewrite Hk. cbn [bind]. intro H. injection H as <-. reflexivity.
Qed.

Section Unbound.

Variable repr_other : pyval -> string.

Lemma template_unbound (facts : hand_facts) (cs fp oas : string)
  (stage position pot chips current_bet num_players : pyval) :
  is_connected facts = None ->
  template repr_other facts cs fp oas stage position pot chips current_bet
    num_players = Raise UnboundLocalError.
Proof. intro H. unfold template. now rewrite H. Qed.

(** Whenever line 40 does not hold, the call ends in an exception. *)
Lemma build_gto_prompt_needs_two_known (kvs : list (string * pyval)) :
  two_known (hand_of kvs) = Ok false ->
  exists e, build_gto_prompt repr_other (PDict kvs) = Raise e.
Proof.
  intro Hk. unfold hand_of in Hk.
  unfold build_gto_prompt. cbn [py_get bind].
  destruct (analyze_hand _) as [facts | e] eqn:Ha;
    cbn [bind]; [| eauto].
  destruct (analyze_community _ _) as [[cs fp] | e]; cbn [bind]; [| eauto].
  destruct (format_opponent_actions _ _) as [oas | e]; cbn [bind];
    [| eauto].
  rewrite template_unbound by (eapply analyze_hand_unbound; eauto).
  cbn [bind]. eauto.
Qed.

End Unbound.

(** C1: [build_gto_prompt] is not total. With the hand absent, empty, equal
    to the sentinel, or of a length other than two, the template reads
    [is_connected] while it is unbound and the call raises
    [UnboundLocalError] instead of returning a prompt. *)
Theorem build_gto_prompt_raises_unbound :
  forall repr_other : pyval -> string,
    build_gto_prompt repr_other (PDict []) = Raise UnboundLocalError
    /\ build_gto_prompt repr_other (PDict [("hand", PList [])])
       = Raise UnboundLocalError
    /\ build_gto_prompt repr_other (PDict [("hand", sentinel)])
       = Raise UnboundLocalError
    /\ build_gto_prompt repr_other (PDict [("hand", PList [PStr "As"])])
       = Raise UnboundLocalError
    /\ build_gto_prompt repr_other
         (PDict [("hand", PList [PStr "As"; PStr "Ks"; PStr "Qs"])])
       = Raise UnboundLocalError.
Proof. intro repr_other. repeat split; reflexivity. Qed.

(** C3: with [hand = ["unknown", "unknown"]] no prompt is returned at all:
    whatever the other fields are, the call ends in an exception, so the
    text "Your hand: unknown" is never produced. *)
Theorem build_gto_prompt_sentinel_raises :
  forall (repr_other : pyval -> string) (kvs : list (string * pyval)),
    lookup "hand" kvs = Some sentinel ->
    exists e, build_gto_prompt repr_other (PDict kvs) = Raise e.
Proof.
  intros repr_other kvs H. apply build_gto_prompt_needs_two_known.
  unfold hand_of. now rewrite H.
Qed.

Lemma build_gto_prompt_sentinel_raises_witness :
  exists e,
    build_gto_prompt no_repr
      (PDict [("hand", sentinel); ("pot", PInt 120); ("stage", PStr "Flop")])
    = Raise e.
Proof.
  exact (build_gto_prompt_sentinel_raises no_repr
           [("hand", sentinel); ("pot", PInt 120); ("stage", PStr "Flop")]
           eq_refl).
Defined.

(** ** Flush potential *)

(** The keys of [suit_counts] are suits read by [card[-1]], hence non-empty
    strings, and the maximum is the count of one of them. *)

Lemma last_char_nonempty (s t : string) : last_char s = Ok t -> t <> "".
Proof.
  induction s as [| c s IH]; [discriminate |].
  destruct s as [| c' s'].
  - cbn. intro H. injection H as <-. discriminate.
  - exact IH.
Qed.

Lemma bump_keys (suit : string) (suit_counts : list (string * nat)) :
  suit <> "" ->
  Forall (fun sc => fst sc <> "") suit_counts ->
  Forall (fun sc => fst sc <> "") (bump suit suit_counts).
Proof.
  intros Hs. induction 1 as [| [k n] rest Hk Hrest IH]; cbn [bump].
  - constructor; [exact Hs | constructor].
  - destruct (k =? suit)%string; constructor; assumption.
Qed.

Lemma count_suits_keys (cards : list string) :
  forall suit_counts result,
    Forall (fun sc => fst sc <> "") suit_counts ->
    count_suits cards suit_counts = Ok result ->
    Forall (fun sc => fst sc <> "") result.
Proof.
  induction cards as [| card cards IH]; intros suit_counts result Hk.
  - cbn. intro H. now injection H as <-.
  - cbn [count_suits].
    destruct (last_char card) as [suit | e] eqn:Hl; cbn [bind];
      [| discriminate].
    apply IH, bump_keys; [now apply last_char_nonempty with card | exact Hk].
Qed.

Lemma max_count_attained (suit_counts : list (string * nat)) :
  (0 < max_count suit_counts)%nat ->
  exists sc, In sc suit_counts /\ snd sc = max_count suit_counts.
Proof.
  unfold max_count.
  induction suit_counts as [| [k n] rest IH]; cbn [map fold_right snd].
  - intro H. inversion H.
  - intro H.
    destruct (Nat.max_spec n (fold_right Nat.max 0%nat (map snd rest)))
      as [[Hlt E] | [Hle E]]; rewrite E in *.
    + destruct (IH H) as (sc & Hin & Hs). exists sc. split; [now right | exact Hs].
    + exists (k, n). split; [now left | reflexivity].
Qed.

Lemma pick_flush_suit_some (suit_counts : list (string * nat)) :
  Forall (fun sc => fst sc <> "") suit_counts ->
  (3 <= max_count suit_counts)%nat ->
  exists s,
    pick_flush_suit suit_counts (max_count suit_counts) = Ok (Some s)
    /\ s <> "".
Proof.
  intros Hk Hm. unfold pick_flush_suit.
  destruct (Nat.leb_spec 3 (max_count suit_counts)) as [_ | Hlt]; [| lia].
  destruct (filter _ suit_counts) as [| sc rest] eqn:Hf.
  - destruct (max_count_attained suit_counts) as (sc & Hin & Hs); [lia |].
    assert (Hin' : In sc (filter
                            (fun sc => (snd sc =? max_count suit_counts)%nat)
                            suit_counts)).
    { apply filter_In. split; [exact Hin | now apply Nat.eqb_eq]. }
    rewrite Hf in Hin'. contradiction.
  - exists (fst sc). split; [reflexivity |].
    assert (Hin : In sc suit_counts).
    { eapply proj1. apply filter_In. rewrite Hf. now left. }
    rewrite Forall_forall in Hk. now apply Hk.
Qed.

(** At exactly three cards of the leading suit the draw text stays at its
    default and line 76 still runs on it. *)
Lemma flush_text_at_three (hand community : pyval) (cards : list string)
  (suit_counts : list (string * nat)) :
  all_cards hand community = Ok cards ->
  count_suits cards [] = Ok suit_counts ->
  max_count suit_counts = 3%nat ->
  exists s,
    pick_flush_suit suit_counts 3 = Ok (Some s)
    /\ flush_text hand community
       = (mine <- holds_suit hand s ;;
          Ok (if mine then "you have a none" else "none")).
Proof.
  intros Ha Hc Hm.
  destruct (pick_flush_suit_some suit_counts) as (s & Hp & Hs).
  - now apply (count_suits_keys cards [] suit_counts).
  - lia.
  - rewrite Hm in Hp. exists s. split; [exact Hp |].
    unfold flush_text. rewrite Ha. cbn [bind]. rewrite Hc. cbn [bind].
    rewrite Hm, Hp. cbn [bind suit_truthy].
    apply String.eqb_neq in Hs. rewrite Hs. cbn [negb andb Nat.leb].
    reflexivity.
Qed.

(** C2: with exactly three cards of the leading suit the flush text is not
    always ["none"]: when a hole card has that suit, line 76 prefixes the
    default and the prompt carries ["you have a none"]. *)
Theorem flush_text_three_of_a_suit :
  forall repr_other : pyval -> string,
    let hand := PList [PStr "Ah"; PStr "Kh"] in
    let community := PList [PStr "Qh"; PStr "2c"; PStr "3d"] in
    (cards <- all_cards hand community ;;
     suit_counts <- count_suits cards [] ;;
     Ok (max_count suit_counts)) = Ok 3%nat
    /\ flush_text hand community = Ok "you have a none"
    /\ exists p,
         build_gto_prompt repr_other
           (PDict [("hand", hand); ("community", community)]) = Ok p
         /\ contains "- Community cards: Qh, 2c, 3d (you have a none)" p
            = true.
Proof.
  intro repr_other. cbv zeta. split; [reflexivity |].
  split; [reflexivity |].
  eexists. split; [reflexivity | vm_compute; reflexivity].
Qed.

(** C6: hole cards [Ah, Kh] with community [Qh, Jh, 2c] give a flush text
    that begins with ["you have a flush draw with 4 h cards"]. *)
Theorem flush_text_four_hearts :
  forall repr_other : pyval -> string,
    let hand := PList [PStr "Ah"; PStr "Kh"] in
    let community := PList [PStr "Qh"; PStr "Jh"; PStr "2c"] in
    (exists text,
        analyze_community hand community = Ok ("Qh, Jh, 2c", text)
        /\ prefix "you have a flush draw with 4 h cards" text = true)
    /\ exists p,
         build_gto_prompt repr_other
           (PDict [("hand", hand); ("community", community)]) = Ok p
         /\ contains
              "- Community cards: Qh, Jh, 2c (you have a flush draw with 4 h cards"
              p = true.
Proof.
  intro repr_other. cbv zeta. split.
  - eexists. split; [reflexivity | reflexivity].
  - eexists. split; [reflexivity | vm_compute; reflexivity].
Qed.

(** ** The handler *)

Section RelayProperties.

Variable repr_other : pyval -> string.
Variable post : string -> payload -> result response.

(** The handler once the backend has answered with a decoded body. *)
Lemma gto_tip_after_backend (data : pyval) (prompt : string) (r : response)
  (raw_output : pyval) :
  build_gto_prompt repr_other data = Ok prompt ->
  post SERVER_URL (mk_payload prompt) = Ok r ->
  raise_for_status r = Ok tt ->
  json_body r = Some raw_output ->
  gto_tip repr_other post (Ok data)
  = match extract_tip raw_output with
    | Ok tip => tip_reply (clean_tip tip)
    | Raise _ => error_reply
    end.
Proof.
  intros Hb Hp Hs Hj. unfold gto_tip, gto_tip_body, response_json.
  cbn [bind]. rewrite Hb. cbn [bind]. rewrite Hp. cbn [bind].
  rewrite Hs. cbn [bind]. rewrite Hj. cbn [bind].
  now destruct (extract_tip raw_output).
Qed.

End RelayProperties.

(** C4, as amended: every reply of the handler is either status 200 with
    the single key [gto_tip] bound to the tip, or, as soon as one step raises
    (decoding the request, building the prompt, reaching the backend, a 4xx
    or 5xx status, decoding the body, extracting the text), status 500 with
    the fixed body [{"tip": "Error generating tip"}], which does not depend
    on the exception. A status outside 400..599 raises nothing: the run goes
    on to the body. *)
Theorem gto_tip_reply_shape :
  forall (repr_other : pyval -> string)
         (post : string -> payload -> result response)
         (get_json : result pyval),
    ((exists tip,
         gto_tip_body repr_other post get_json = Ok tip
         /\ gto_tip repr_other post get_json
            = {| code := 200; body := [("gto_tip", PStr tip)] |})
     \/ (exists e,
            gto_tip_body repr_other post get_json = Raise e
            /\ gto_tip repr_other post get_json
               = {| code := 500;
                    body := [("tip", PStr "Error generating tip")] |}))
    /\ gto_tip repr_other post get_json
       = match get_json with
         | Raise _ => error_reply
         | Ok data =>
             match build_gto_prompt repr_other data with
             | Raise _ => error_reply
             | Ok prompt =>
                 match post SERVER_URL (mk_payload prompt) with
                 | Raise _ => error_reply
                 | Ok r =>
                     if (400 <=? status_code r) && (status_code r <? 600)
                     then error_reply
                     else
                       match json_body r with
                       | None => error_reply
                       | Some raw_output =>
                           match extract_tip raw_output with
                           | Raise _ => error_reply
                           | Ok tip => tip_reply (clean_tip tip)
                           end
                       end
                 end
             end
         end.
Proof.
  intros repr_other post get_json. split.
  - unfold gto_tip.
    destruct (gto_tip_body repr_other post get_json) as [tip | e].
    + left. now exists tip.
    + right. now exists e.
  - unfold gto_tip, gto_tip_body.
    destruct get_json as [data | e]; cbn [bind]; [| reflexivity].
    destruct (build_gto_prompt repr_other data) as [prompt | e];
      cbn [bind]; [| reflexivity].
    destruct (post SERVER_URL (mk_payload prompt)) as [r | e];
      cbn [bind]; [| reflexivity].
    unfold raise_for_status, response_json.
    destruct ((400 <=? status_code r) && (status_code r <? 600));
      cbn [bind]; [reflexivity |].
    destruct (json_body r) as [raw_output |]; cbn [bind]; [| reflexivity].
    now destruct (extract_tip raw_output).
Qed.

(** C4 as worded fails: a status that is not 2xx does not always give the
    500 reply. [raise_for_status] is silent on 302, so a usable body under
    that status is relayed with status 200. *)
Lemma gto_tip_non_2xx_relayed :
  ~ (200 <= 302 < 300)
  /\ gto_tip no_repr found_elsewhere (Ok two_aces) = tip_reply "Fold here."
  /\ gto_tip no_repr found_elsewhere (Ok two_aces) <> error_reply
  /\ ~ (forall (post : string -> payload -> result response)
               (data : pyval) (prompt : string) (r : response),
          build_gto_prompt no_repr data = Ok prompt ->
          post SERVER_URL (mk_payload prompt) = Ok r ->
          ~ (200 <= status_code r < 300) ->
          gto_tip no_repr post (Ok data) = error_reply).
Proof.
  split; [lia |]. split; [reflexivity |]. split; [discriminate |].
  intro H.
  pose (prompt :=
          match build_gto_prompt no_repr two_aces with
          | Ok p => p
          | Raise _ => ""
          end).
  specialize
    (H found_elsewhere two_aces prompt
       {| status_code := 302; json_body := Some fold_answer |}
       eq_refl eq_refl).
  cbn [status_code] in H.
  assert (Hn : ~ (200 <= 302 < 300)) by lia.
  specialize (H Hn). discriminate H.
Qed.

(** C8: the tags [/think], [</think>], [/no_think], [<], [>] are removed in
    that order, each as a literal and with a trim after each removal; the
    match is case-sensitive; a backend text ["  /no_think Fold here. "]
    becomes the tip ["Fold here."]. *)
Theorem strip_tags_order_and_example :
  (forall tip,
      strip_tags tip
      = strip (replace ">" ""
          (strip (replace "<" ""
            (strip (replace "/no_think" ""
              (strip (replace "</think>" ""
                (strip (replace "/think" "" tip))))))))))
  /\ strip_tags "a /THINK b" = "a /THINK b"
  /\ strip_tags "a.c /think <b>" = "a.c  b"
  /\ extract_tip
       (PDict [("choices",
                PList [PDict [("text", PStr "  /no_think Fold here. ")]])])
     = Ok "/no_think Fold here."
  /\ clean_tip "/no_think Fold here." = "Fold here."
  /\ forall repr_other,
       gto_tip repr_other
         (answering
            (PDict [("choices",
                     PList [PDict [("text",
                                    PStr "  /no_think Fold here. ")]])]))
         (Ok two_aces)
       = {| code := 200; body := [("gto_tip", PStr "Fold here.")] |}.
Proof.
  split; [exact strip_tags_unfold |].
  repeat split; try reflexivity.
Qed.

(** C10: once the backend has answered with a JSON object, an empty
    [choices] array makes the extraction raise and the caller gets the
    generic 500 reply, whereas a missing [choices] key, or a first choice
    without [text], gives a 200 reply with the tip ["No tip generated."]. *)
Theorem gto_tip_choices_edge_cases :
  forall (repr_other : pyval -> string)
         (post : string -> payload -> result response)
         (data : pyval) (prompt : string) (r : response)
         (kvs : list (string * pyval)),
    build_gto_prompt repr_other data = Ok prompt ->
    post SERVER_URL (mk_payload prompt) = Ok r ->
    raise_for_status r = Ok tt ->
    json_body r = Some (PDict kvs) ->
    (lookup "choices" kvs = Some (PList []) ->
     extract_tip (PDict kvs) = Raise IndexError
     /\ gto_tip repr_other post (Ok data) = error_reply)
    /\ (lookup "choices" kvs = None ->
        gto_tip repr_other post (Ok data) = tip_reply "No tip generated.")
    /\ (forall first rest,
           lookup "choices" kvs = Some (PList (PDict first :: rest)) ->
           lookup "text" first = None ->
           gto_tip repr_other post (Ok data)
           = tip_reply "No tip generated.").
Proof.
  intros repr_other post data prompt r kvs Hb Hp Hs Hj.
  rewrite (gto_tip_after_backend repr_other post data prompt r (PDict kvs))
    by assumption.
  unfold extract_tip. cbn [py_get bind].
  split; [| split].
  - intro H. rewrite H. cbn [py_item nth_error bind]. now split.
  - intro H. rewrite H. reflexivity.
  - intros first rest H Ht. rewrite H.
    cbn [py_item nth_error bind py_get]. rewrite Ht. reflexivity.
Qed.

Lemma gto_tip_choices_edge_cases_witness :
  gto_tip no_repr (answering (PDict [("choices", PList [])])) (Ok two_aces)
  = error_reply
  /\ gto_tip no_repr (answering (PDict [("id", PStr "cmpl-1")])) (Ok two_aces)
     = tip_reply "No tip generated."
  /\ gto_tip no_repr
       (answering (PDict [("choices", PList [PDict [("index", PInt 0)]])]))
       (Ok two_aces)
     = tip_reply "No tip generated.".
Proof.
  pose (prompt :=
          match build_gto_prompt no_repr two_aces with
          | Ok p => p
          | Raise _ => ""
          end).
  assert (Hb : build_gto_prompt no_repr two_aces = Ok prompt)
    by reflexivity.
  split; [| split].
  - exact (proj2 (proj1
             (gto_tip_choices_edge_cases no_repr
                (answering (PDict [("choices", PList [])]))
                two_aces prompt _ _ Hb eq_refl eq_refl eq_refl)
             eq_refl)).
  - exact (proj1 (proj2
             (gto_tip_choices_edge_cases no_repr
                (answering (PDict [("id", PStr "cmpl-1")]))
                two_aces prompt _ _ Hb eq_refl eq_refl eq_refl))
             eq_refl).
  - exact (proj2 (proj2
             (gto_tip_choices_edge_cases no_repr
                (answering
                   (PDict [("choices", PList [PDict [("index", PInt 0)]])]))
                two_aces prompt _ _ Hb eq_refl eq_refl eq_refl))
             [("index", PInt 0)] [] eq_refl eq_refl).
Defined.

(** * Further properties of the builder *)

Lemma append_assoc (a b c : string) : (a ++ b) ++ c = a ++ (b ++ c).
Proof. induction a as [| x a IH]; cbn; [reflexivity | now rewrite IH]. Qed.

Lemma last_char_app (a b : string) :
  b <> "" -> last_char (a ++ b) = last_char b.
Proof.
  intro Hb. induction a as [| x a IH]; [reflexivity |].
  cbn [append]. destruct (a ++ b) eqn:E.
  - destruct a; [cbn in E; contradiction | discriminate E].
  - exact IH.
Qed.

Lemma ends_with_app (a x e : string) :
  (exists front, x = front ++ e) -> exists front, a ++ x = front ++ e.
Proof.
  intros [front ->]. exists (a ++ front). now rewrite append_assoc.
Qed.

Lemma ends_with_cons (c : ascii) (x e : string) :
  (exists front, x = front ++ e) -> exists front, String c x = front ++ e.
Proof. intros [front ->]. now exists (String c front). Qed.

Lemma all_str_map (l : list string) : all_str (map PStr l) = Ok l.
Proof.
  induction l as [| x l IH]; [reflexivity |].
  cbn [map all_str]. now rewrite IH.
Qed.

(** Two non-empty tokens, the first one not the sentinel word, are analysed
    by the branch for known cards. *)
Lemma analyze_hand_tokens (c1 c2 : string) :
  c1 <> "" -> c2 <> "" -> c1 <> "unknown" ->
  let r1 := rank_get (spec_rank_text c1) rank_values in
  let r2 := rank_get (spec_rank_text c2) rank_values in
  let suited := (spec_suit c1 =? spec_suit c2)%string in
  analyze_hand (PList [PStr c1; PStr c2])
  = Ok {| hand_str := c1 ++ ", " ++ c2;
          hand_type := if suited then "suited" else "offsuit";
          hand_strength := spec_strength suited r1 r2;
          is_connected := Some (Z.abs (r1 - r2) <=? 2) |}.
Proof.
  intros H1 H2 Hu r1 r2 suited.
  unfold analyze_hand, two_known.
  cbn [py_item nth_error bind differs_from py_len List.length Nat.eqb].
  apply String.eqb_neq in Hu. rewrite Hu.
  cbn [negb py_join str_items py_iter all_str bind join].
  now rewrite (classify_tokens c1 c2 H1 H2).
Qed.

Lemma two_known_tokens (c1 c2 : string) :
  c1 <> "unknown" -> two_known (PList [PStr c1; PStr c2]) = Ok true.
Proof.
  intro Hu. unfold two_known.
  cbn [py_item nth_error bind differs_from py_len List.length Nat.eqb].
  apply String.eqb_neq in Hu. now rewrite Hu.
Qed.

Lemma count_suits_total (cards : list string) :
  Forall (fun c => c <> "") cards ->
  forall suit_counts, exists result, count_suits cards suit_counts = Ok result.
Proof.
  induction 1 as [| card cards Hc Hrest IH]; intro suit_counts.
  - now exists suit_counts.
  - cbn [count_suits]. rewrite (last_char_spec card Hc). cbn [bind].
    apply IH.
Qed.

Lemma holds_suit_tokens (c1 c2 suit : string) :
  c1 <> "" -> c2 <> "" ->
  holds_suit (PList [PStr c1; PStr c2]) suit
  = Ok ((spec_suit c1 =? suit)%string || (spec_suit c2 =? suit)%string).
Proof.
  intros H1 H2. unfold holds_suit.
  cbn [card_at py_item nth_error bind].
  rewrite (last_char_spec c1 H1). cbn [bind].
  destruct (spec_suit c1 =? suit)%string; [reflexivity |].
  rewrite (last_char_spec c2 H2). reflexivity.
Qed.

Lemma flush_text_total (c1 c2 : string) (cards : list string) :
  c1 <> "" -> c2 <> "" -> Forall (fun c => c <> "") cards ->
  exists text,
    flush_text (PList [PStr c1; PStr c2]) (PList (map PStr cards)) = Ok text.
Proof.
  intros H1 H2 Hc. unfold flush_text, all_cards.
  change ([PStr c1; PStr c2] ++ map PStr cards)%list
    with (map PStr (c1 :: c2 :: cards)).
  rewrite all_str_map. cbn [bind].
  destruct (count_suits_total (c1 :: c2 :: cards)) with (suit_counts := @nil (string * nat))
    as [counts Hcounts].
  { repeat constructor; assumption. }
  rewrite Hcounts. cbn [bind].
  destruct (Nat.leb_spec 3 (max_count counts)) as [Hm | Hm].
  - destruct (pick_flush_suit_some counts) as (s & Hp & Hs).
    + now apply (count_suits_keys (c1 :: c2 :: cards) [] counts).
    + exact Hm.
    + rewrite Hp. cbn [bind suit_truthy].
      apply String.eqb_neq in Hs. rewrite Hs. cbn [negb andb].
      rewrite (holds_suit_tokens c1 c2 s H1 H2). cbn [bind]. eauto.
  - unfold pick_flush_suit.
    destruct (Nat.leb_spec 3 (max_count counts)); [lia |].
    cbn [bind]. eauto.
Qed.

Section BuilderOutcome.

Variable repr_other : pyval -> string.

Lemma template_some (facts : hand_facts) (cs fp oas : string)
  (stage position pot chips current_bet num_players : pyval) :
  is_connected facts <> None ->
  exists text,
    template repr_other facts cs fp oas stage position pot chips current_bet
      num_players = Ok text.
Proof.
  intro H. unfold template.
  destruct (is_connected facts); [eauto | contradiction].
Qed.

(** The text of the f-string starts and ends with the marker line, so the
    final [strip] has nothing to remove. *)
Lemma template_shape (facts : hand_facts) (cs fp oas : string)
  (stage position pot chips current_bet num_players : pyval) (text : string) :
  template repr_other facts cs fp oas stage position pot chips current_bet
    num_players = Ok text ->
  prefix ("/no_think" ++ nl) text = true
  /\ (exists front, text = front ++ nl ++ "/no_think")
  /\ strip text = text.
Proof.
  unfold template. destruct (is_connected facts) as [connected |];
    [| discriminate].
  intro H. injection H as <-.
  match goal with
  | |- _ /\ (exists front, ?t = _) /\ _ =>
      assert (Hend : exists front, t = front ++ nl ++ "/no_think")
  end.
  { repeat first [ now (exists ""; reflexivity)
                 | apply ends_with_cons
                 | apply ends_with_app ]. }
  split; [reflexivity |]. split; [exact Hend |].
  destruct Hend as [front Hfront]. rewrite Hfront at 1 2.
  assert (Hs : strip (front ++ nl ++ "/no_think") = front ++ nl ++ "/no_think").
  { apply strip_trimmed. rewrite <- Hfront.
    unfold trimmed. cbn [append].
    rewrite Hfront at 1. rewrite last_char_app by discriminate.
    reflexivity. }
  now rewrite Hs.
Qed.

End BuilderOutcome.

(** X1: a prompt is returned only for a dict whose hand has exactly two
    entries, the first of which is not the word "unknown". *)
Theorem build_gto_prompt_ok_two_known :
  forall (repr_other : pyval -> string) (data : pyval) (p : string),
    build_gto_prompt repr_other data = Ok p ->
    exists kvs, data = PDict kvs /\ two_known (hand_of kvs) = Ok true.
Proof.
  intros repr_other data p H.
  destruct data as [| b | z | f | s | l | kvs]; try discriminate H.
  exists kvs. split; [reflexivity |].
  destruct (two_known (hand_of kvs)) as [[|] | e] eqn:Hk.
  - reflexivity.
  - destruct (build_gto_prompt_needs_two_known repr_other kvs Hk) as [e He].
    rewrite He in H. discriminate H.
  - exfalso. revert H. unfold hand_of in Hk.
    unfold build_gto_prompt, analyze_hand. cbn [py_get bind].
    destruct (py_item _ 0) as [first | e0]; cbn [bind]; [| discriminate].
    destruct (if differs_from first "unknown" then _ else _) as [hs | e0];
      cbn [bind]; [| discriminate].
    rewrite Hk. cbn [bind]. discriminate.
Qed.

Lemma build_gto_prompt_ok_two_known_witness :
  exists kvs, two_aces = PDict kvs /\ two_known (hand_of kvs) = Ok true.
Proof.
  exact (build_gto_prompt_ok_two_known no_repr two_aces _ eq_refl).
Defined.

(** X2: a request body that decodes to anything but an object (null, a
    number, a string, a list) makes line 26 raise [AttributeError], and the
    handler answers with the generic 500 reply without calling the backend. *)
Theorem build_gto_prompt_non_dict :
  forall (repr_other : pyval -> string)
         (post : string -> payload -> result response) (data : pyval),
    match data with
    | PDict _ => True
    | _ =>
        build_gto_prompt repr_other data = Raise AttributeError
        /\ gto_tip repr_other post (Ok data) = error_reply
    end.
Proof.
  intros repr_other post data.
  destruct data; try exact I; split; reflexivity.
Qed.

(** X3: a well-formed game state is always turned into a prompt: two
    non-empty hole card tokens (the first one not "unknown"), any list of
    non-empty community card tokens (none at all included) and any list of
    opponent actions, whatever the other fields hold. *)
Theorem build_gto_prompt_well_formed :
  forall (repr_other : pyval -> string) (kvs : list (string * pyval))
         (c1 c2 : string) (cards : list string) (actions : list pyval),
    hand_of kvs = PList [PStr c1; PStr c2] ->
    c1 <> "" -> c2 <> "" -> c1 <> "unknown" ->
    community_of kvs = PList (map PStr cards) ->
    Forall (fun c => c <> "") cards ->
    opponents_of kvs = PList actions ->
    exists p, build_gto_prompt repr_other (PDict kvs) = Ok p.
Proof.
  intros repr_other kvs c1 c2 cards actions Hh H1 H2 Hu Hc Hcards Ho.
  unfold hand_of in Hh. unfold community_of in Hc. unfold opponents_of in Ho.
  unfold build_gto_prompt. cbn [py_get bind]. rewrite Hh, Hc, Ho.
  rewrite (analyze_hand_tokens c1 c2 H1 H2 Hu). cbn [bind].
  assert (Hcom : exists cs fp,
             analyze_community (PList [PStr c1; PStr c2])
               (PList (map PStr cards)) = Ok (cs, fp)).
  { unfold analyze_community, py_join, str_items.
    destruct cards as [| card cards]; [cbn; eauto |].
    change (truthy (PList (map PStr (card :: cards)))) with true.
    cbn [py_iter bind]. rewrite all_str_map. cbn [bind].
    rewrite (two_known_tokens c1 c2 Hu). cbn [bind].
    destruct (flush_text_total c1 c2 (card :: cards) H1 H2 Hcards)
      as [text Ht].
    rewrite Ht. cbn [bind]. eauto. }
  destruct Hcom as (cs & fp & Hcom). rewrite Hcom. cbn [bind].
  assert (Hopp : exists oas,
             format_opponent_actions repr_other (PList actions) = Ok oas).
  { unfold format_opponent_actions.
    destruct (truthy (PList actions)); cbn [py_iter bind]; eauto. }
  destruct Hopp as [oas Hopp]. rewrite Hopp. cbn [bind].
  match goal with
  | |- exists p, bind (template ?r ?f ?a ?b ?c ?d ?e ?g ?h ?i ?j) _ = _ =>
      destruct (template_some r f a b c d e g h i j) as [text Htext];
        [cbn; discriminate | rewrite Htext]
  end.
  cbn [bind]. eauto.
Qed.

Lemma build_gto_prompt_well_formed_witness :
  exists p,
    build_gto_prompt no_repr
      (PDict [("hand", PList [PStr "Ah"; PStr "Kd"]);
              ("community", PList [PStr "Qh"; PStr "Jh"; PStr "2c"]);
              ("opponent_actions", PList [PStr "raise"; PNone])])
    = Ok p.
Proof.
  refine (build_gto_prompt_well_formed no_repr
            [("hand", PList [PStr "Ah"; PStr "Kd"]);
             ("community", PList [PStr "Qh"; PStr "Jh"; PStr "2c"]);
             ("opponent_actions", PList [PStr "raise"; PNone])]
            "Ah" "Kd" ["Qh"; "Jh"; "2c"] [PStr "raise"; PNone]
            eq_refl _ _ _ eq_refl _ eq_refl);
    try discriminate.
  repeat constructor; discriminate.
Defined.

(** * Further properties of the flush analysis *)

Lemma Ok_inj {A : Type} (a b : A) : Ok a = Ok b -> a = b.
Proof. intro H. now injection H. Qed.

Lemma count_suits_tally (cards : list string) :
  forall suit_counts,
    count_suits cards suit_counts
    = (suits <- suits_of cards ;; Ok (tally suits suit_counts)).
Proof.
  induction cards as [| card cards IH]; intro suit_counts; [reflexivity |].
  cbn [count_suits suits_of].
  destruct (last_char card) as [suit | e]; cbn [bind]; [| reflexivity].
  rewrite IH. now destruct (suits_of cards).
Qed.

Lemma occurrences_cons (x y : string) (l : list string) :
  occurrences x (y :: l)
  = if (x =? y)%string then S (occurrences x l) else occurrences x l.
Proof. unfold occurrences. cbn [filter]. now destruct (x =? y)%string. Qed.

Lemma mem_app_one (x s : string) (keys : list string) :
  mem x (keys ++ [s]) = mem x keys || (x =? s)%string.
Proof.
  unfold mem. rewrite existsb_app. cbn [existsb]. now rewrite orb_false_r.
Qed.

Lemma mem_In (x : string) (keys : list string) :
  mem x keys = true <-> In x keys.
Proof.
  unfold mem. rewrite existsb_exists. split.
  - intros (y & Hin & E). apply String.eqb_eq in E. now subst y.
  - intro Hin. exists x. split; [exact Hin | apply String.eqb_refl].
Qed.

Lemma bump_absent (suit : string) (counts : list (string * nat)) :
  mem suit (map fst counts) = false ->
  bump suit counts = (counts ++ [(suit, 1%nat)])%list.
Proof.
  induction counts as [| [k n] rest IH]; [reflexivity |].
  unfold mem. cbn [map fst existsb bump]. intro H.
  apply orb_false_iff in H as [Hk Hrest].
  rewrite String.eqb_sym in Hk. rewrite Hk.
  cbn [app]. f_equal. now apply IH.
Qed.

Lemma bump_present (suit : string) (counts : list (string * nat)) :
  NoDup (map fst counts) ->
  mem suit (map fst counts) = true ->
  bump suit counts
  = map (fun kn => if (fst kn =? suit)%string
                   then (fst kn, S (snd kn)) else kn) counts.
Proof.
  induction counts as [| [k n] rest IH]; [discriminate |].
  cbn [map fst snd bump]. intros Hnd Hm. inversion Hnd as [| ? ? Hk Hrest].
  subst. destruct (String.eqb_spec k suit) as [-> | Hne].
  - f_equal. symmetry. rewrite <- (map_id rest) at 2.
    apply map_ext_in. intros [k' n'] Hin. cbn [fst snd].
    destruct (String.eqb_spec k' suit) as [-> | _]; [| reflexivity].
    exfalso. apply Hk. apply in_map_iff. now exists (suit, n').
  - f_equal. apply IH; [exact Hrest |].
    unfold mem in *. cbn [existsb] in Hm.
    apply orb_true_iff in Hm as [Hm | Hm]; [| exact Hm].
    apply String.eqb_eq in Hm. now subst.
Qed.

Lemma filter_filter_implied {A : Type} (p q : A -> bool) (l : list A) :
  (forall x, p x = true -> q x = true) ->
  filter p (filter q l) = filter p l.
Proof.
  intro H. induction l as [| x l IH]; [reflexivity |].
  cbn [filter]. destruct (q x) eqn:Hq.
  - cbn [filter]. now rewrite IH.
  - rewrite IH. destruct (p x) eqn:Hp; [| reflexivity].
    apply H in Hp. congruence.
Qed.

Lemma filter_andb {A : Type} (p q : A -> bool) (l : list A) :
  filter (fun x => p x && q x) l = filter p (filter q l).
Proof.
  induction l as [| x l IH]; [reflexivity |].
  cbn [filter]. destruct (q x); cbn [filter];
    destruct (p x); cbn [andb]; now rewrite IH.
Qed.

(** The loop started from counts with distinct keys: old keys keep their
    place and gain their occurrences, new suits follow in the order of their
    first appearance. *)
Lemma tally_spec (suits : list string) :
  forall counts,
    NoDup (map fst counts) ->
    tally suits counts
    = (map (fun kn => (fst kn, (snd kn + occurrences (fst kn) suits)%nat))
         counts
       ++ map (fun s => (s, occurrences s suits))
            (filter (fun s => negb (mem s (map fst counts)))
               (first_seen suits)))%list.
Proof.
  induction suits as [| s suits IH]; intros counts Hnd.
  - cbn. rewrite app_nil_r. rewrite <- (map_id counts) at 1.
    apply map_ext. intros [k n]. cbn. now rewrite Nat.add_0_r.
  - change (tally (s :: suits) counts) with (tally suits (bump s counts)).
    cbn [first_seen filter].
    destruct (mem s (map fst counts)) eqn:Hm; cbn [negb].
    + rewrite (bump_present s counts Hnd Hm).
      set (g := fun kn : string * nat =>
                  if (fst kn =? s)%string then (fst kn, S (snd kn)) else kn).
      assert (Hkeys : map fst (map g counts) = map fst counts).
      { rewrite map_map. apply map_ext. intros [k n]. unfold g. cbn.
        now destruct (k =? s)%string. }
      rewrite IH by (now rewrite Hkeys). rewrite Hkeys, map_map. f_equal.
      * apply map_ext. intros [k n]. unfold g. cbn [fst snd].
        rewrite occurrences_cons.
        destruct (k =? s)%string; cbn [fst snd]; f_equal; lia.
      * rewrite filter_filter_implied.
        -- apply map_ext_in. intros x Hin. apply filter_In in Hin as [_ Hx].
           rewrite occurrences_cons.
           destruct (String.eqb_spec x s) as [-> | _]; [| reflexivity].
           rewrite Hm in Hx. discriminate.
        -- intros x Hx. destruct (String.eqb_spec x s) as [-> | _];
             [| reflexivity].
           rewrite Hm in Hx. discriminate.
    + rewrite (bump_absent s counts Hm).
      assert (Hnd' : NoDup (map fst (counts ++ [(s, 1%nat)]))).
      { rewrite map_app. cbn [map fst].
        apply NoDup_app; [exact Hnd | repeat constructor; intros [] | ].
        intros x Hx [<- | []].
        apply mem_In in Hx. congruence. }
      rewrite IH by exact Hnd'.
      rewrite !map_app. cbn [map fst snd]. rewrite <- app_assoc.
      cbn [app]. f_equal.
      * apply map_ext_in. intros [k n] Hin. cbn [fst snd].
        rewrite occurrences_cons.
        destruct (String.eqb_spec k s) as [-> | _]; [| reflexivity].
        exfalso. assert (Hs : mem s (map fst counts) = true).
        { apply mem_In, in_map_iff. now exists (s, n). }
        congruence.
      * rewrite occurrences_cons, String.eqb_refl. f_equal.
        assert (Hf : forall l,
                   filter (fun x => negb (mem x (map fst counts ++ [s]))) l
                   = filter (fun x => negb (mem x (map fst counts)))
                       (filter (fun y => negb (y =? s)%string) l)).
        { intro l. rewrite <- filter_andb. apply filter_ext. intro x.
          now rewrite mem_app_one, negb_orb. }
        rewrite Hf. apply map_ext_in. intros x Hin.
        apply filter_In in Hin as [Hin _].
        apply filter_In in Hin as [_ Hx].
        rewrite occurrences_cons.
        now destruct (x =? s)%string.
Qed.

Lemma filter_nothing_seen (l : list string) :
  filter (fun s => negb (mem s (map fst (@nil (string * nat))))) l = l.
Proof.
  induction l as [| x l IH]; [reflexivity |]. cbn. now f_equal.
Qed.

(** X5: the counting loop of lines 66-69 builds, for the suits in the order
    of their first appearance among the cards, the number of cards of each
    suit. *)
Theorem count_suits_spec :
  forall (cards suits : list string),
    suits_of cards = Ok suits ->
    count_suits cards []
    = Ok (map (fun s => (s, occurrences s suits)) (first_seen suits)).
Proof.
  intros cards suits H. rewrite count_suits_tally, H. cbn [bind].
  rewrite tally_spec by constructor.
  cbn [map app]. now rewrite filter_nothing_seen.
Qed.

Lemma count_suits_spec_witness :
  count_suits ["Ah"; "2c"; "Qh"; "3d"; "10c"; "Kh"] []
  = Ok [("h", 3%nat); ("c", 2%nat); ("d", 1%nat)].
Proof.
  exact (count_suits_spec ["Ah"; "2c"; "Qh"; "3d"; "10c"; "Kh"]
           ["h"; "c"; "h"; "d"; "c"; "h"] eq_refl).
Defined.





(** X7: with fewer than three cards of any one suit there is no flush suit
    and the flush text is ["none"]. *)
Theorem flush_text_below_three :
  forall (hand community : pyval) (cards : list string)
         (suit_counts : list (string * nat)),
    all_cards hand community = Ok cards ->
    count_suits cards [] = Ok suit_counts ->
    (max_count suit_counts < 3)%nat ->
    flush_text hand community = Ok "none".
Proof.
  intros hand community cards suit_counts Ha Hc Hm.
  unfold flush_text. rewrite Ha. cbn [bind]. rewrite Hc. cbn [bind].
  unfold pick_flush_suit.
  destruct (Nat.leb_spec 3 (max_count suit_counts)); [lia | reflexivity].
Qed.

Lemma flush_text_below_three_witness :
  flush_text (PList [PStr "Ah"; PStr "Kh"])
    (PList [PStr "Qs"; PStr "2c"; PStr "3d"; PStr "9s"])
  = Ok "none".
Proof.
  refine (flush_text_below_three (PList [PStr "Ah"; PStr "Kh"])
            (PList [PStr "Qs"; PStr "2c"; PStr "3d"; PStr "9s"])
            ["Ah"; "Kh"; "Qs"; "2c"; "3d"; "9s"]
            [("h", 2%nat); ("s", 2%nat); ("c", 1%nat); ("d", 1%nat)]
            eq_refl eq_refl _).
  vm_compute. apply le_n.
Defined.

(** With four or more cards of the leading suit line 73 sets the draw text
    and line 76 runs on it. *)
Lemma flush_text_at_four :
  forall (hand community : pyval) (cards : list string)
         (suit_counts : list (string * nat)),
    all_cards hand community = Ok cards ->
    count_suits cards [] = Ok suit_counts ->
    (4 <= max_count suit_counts)%nat ->
    exists s,
      pick_flush_suit suit_counts (max_count suit_counts) = Ok (Some s)
      /\ flush_text hand community
         = (mine <- holds_suit hand s ;;
            let draw := "flush draw with "
                        ++ str_of_nat (max_count suit_counts)
                        ++ " " ++ s ++ " cards" in
            Ok (if mine then "you have a " ++ draw else draw)).
Proof.
  intros hand community cards suit_counts Ha Hc Hm.
  destruct (pick_flush_suit_some suit_counts) as (s & Hp & Hs).
  - now apply (count_suits_keys cards [] suit_counts).
  - lia.
  - exists s. split; [exact Hp |].
    unfold flush_text. rewrite Ha. cbn [bind]. rewrite Hc. cbn [bind].
    rewrite Hp. cbn [bind suit_truthy].
    apply String.eqb_neq in Hs. rewrite Hs. cbn [negb andb].
    destruct (Nat.leb_spec 4 (max_count suit_counts)); [reflexivity | lia].
Qed.

(** X8: for two hole cards [c1] and [c2], with four or more cards of the
    leading suit the flush text is ["flush draw with {count} {suit} cards"],
    prefixed with ["you have a "] exactly when the last character of [c1] or
    of [c2] is that suit. *)
Theorem flush_text_four_or_more :
  forall (c1 c2 : string) (community : pyval) (cards : list string)
         (suit_counts : list (string * nat)),
    c1 <> "" -> c2 <> "" ->
    all_cards (PList [PStr c1; PStr c2]) community = Ok cards ->
    count_suits cards [] = Ok suit_counts ->
    (4 <= max_count suit_counts)%nat ->
    exists s,
      pick_flush_suit suit_counts (max_count suit_counts) = Ok (Some s)
      /\ flush_text (PList [PStr c1; PStr c2]) community
         = Ok (let draw := "flush draw with "
                           ++ str_of_nat (max_count suit_counts)
                           ++ " " ++ s ++ " cards" in
               if (spec_suit c1 =? s)%string || (spec_suit c2 =? s)%string
               then "you have a " ++ draw else draw).
Proof.
  intros c1 c2 community cards suit_counts H1 H2 Ha Hc Hm.
  destruct (flush_text_at_four _ _ cards suit_counts Ha Hc Hm)
    as (s & Hp & Ht).
  exists s. split; [exact Hp |].
  rewrite Ht, (holds_suit_tokens c1 c2 s H1 H2). reflexivity.
Qed.

Lemma flush_text_four_or_more_witness :
  exists s,
    pick_flush_suit [("s", 1%nat); ("c", 2%nat); ("d", 4%nat)] 4
    = Ok (Some s)
    /\ flush_text (PList [PStr "As"; PStr "Kc"])
         (PList [PStr "Qd"; PStr "2c"; PStr "3d"; PStr "9d"; PStr "10d"])
       = Ok (let draw := "flush draw with " ++ str_of_nat 4
                         ++ " " ++ s ++ " cards" in
             if (spec_suit "As" =? s)%string || (spec_suit "Kc" =? s)%string
             then "you have a " ++ draw else draw).
Proof.
  refine (flush_text_four_or_more "As" "Kc"
            (PList [PStr "Qd"; PStr "2c"; PStr "3d"; PStr "9d"; PStr "10d"])
            ["As"; "Kc"; "Qd"; "2c"; "3d"; "9d"; "10d"]
            [("s", 1%nat); ("c", 2%nat); ("d", 4%nat)]
            _ _ eq_refl eq_refl _); try discriminate.
  vm_compute. repeat constructor.
Defined.

(** X9: for two hole cards [c1] and [c2], with exactly three cards of the
    leading suit the draw text stays at its default and line 76 still
    prefixes it: the flush text is ["you have a none"] when the last
    character of [c1] or of [c2] is that suit, and ["none"] otherwise. *)
Theorem flush_text_exactly_three :
  forall (c1 c2 : string) (community : pyval) (cards : list string)
         (suit_counts : list (string * nat)),
    c1 <> "" -> c2 <> "" ->
    all_cards (PList [PStr c1; PStr c2]) community = Ok cards ->
    count_suits cards [] = Ok suit_counts ->
    max_count suit_counts = 3%nat ->
    exists s,
      pick_flush_suit suit_counts 3 = Ok (Some s)
      /\ flush_text (PList [PStr c1; PStr c2]) community
         = Ok (if (spec_suit c1 =? s)%string || (spec_suit c2 =? s)%string
               then "you have a none" else "none").
Proof.
  intros c1 c2 community cards suit_counts H1 H2 Ha Hc Hm.
  destruct (flush_text_at_three _ _ cards suit_counts Ha Hc Hm)
    as (s & Hp & Ht).
  exists s. split; [exact Hp |].
  rewrite Ht, (holds_suit_tokens c1 c2 s H1 H2). reflexivity.
Qed.

Lemma flush_text_exactly_three_witness :
  exists s,
    pick_flush_suit [("s", 1%nat); ("d", 1%nat); ("h", 3%nat)] 3
    = Ok (Some s)
    /\ flush_text (PList [PStr "As"; PStr "Kd"])
         (PList [PStr "Qh"; PStr "2h"; PStr "3h"])
       = Ok (if (spec_suit "As" =? s)%string || (spec_suit "Kd" =? s)%string
             then "you have a none" else "none").
Proof.
  refine (flush_text_exactly_three "As" "Kd"
            (PList [PStr "Qh"; PStr "2h"; PStr "3h"])
            ["As"; "Kd"; "Qh"; "2h"; "3h"]
            [("s", 1%nat); ("d", 1%nat); ("h", 3%nat)]
            _ _ eq_refl eq_refl eq_refl); discriminate.
Defined.

Lemma suits_of_empty_token (cards : list string) :
  In "" cards -> suits_of cards = Raise IndexError.
Proof.
  induction cards as [| card cards IH]; [contradiction |].
  intros [-> | Hin]; [reflexivity |].
  cbn [suits_of]. destruct card as [| c card']; [reflexivity |].
  rewrite last_char_spec by discriminate. cbn [bind].
  now rewrite (IH Hin).
Qed.

(** X10: an empty string among the two hole cards or the community cards
    makes [card[-1]] raise: the builder ends in [IndexError] and the handler
    answers with the generic 500 reply. *)
Theorem build_gto_prompt_empty_token :
  forall (repr_other : pyval -> string)
         (post : string -> payload -> result response)
         (kvs : list (string * pyval))
         (c1 c2 : string) (cards : list string),
    hand_of kvs = PList [PStr c1; PStr c2] ->
    c1 <> "unknown" ->
    community_of kvs = PList (map PStr cards) ->
    In "" (c1 :: c2 :: cards) ->
    build_gto_prompt repr_other (PDict kvs) = Raise IndexError
    /\ gto_tip repr_other post (Ok (PDict kvs)) = error_reply.
Proof.
  intros repr_other post kvs c1 c2 cards Hh Hu Hc Hin.
  assert (Hb : build_gto_prompt repr_other (PDict kvs) = Raise IndexError).
  { unfold hand_of in Hh. unfold community_of in Hc.
    unfold build_gto_prompt. cbn [py_get bind]. rewrite Hh, Hc.
    destruct (string_dec c1 "") as [E1 | N1].
    { subst c1. reflexivity. }
    destruct (string_dec c2 "") as [E2 | N2].
    { subst c2. unfold analyze_hand, two_known, classify.
      cbn [py_item nth_error bind differs_from py_len List.length Nat.eqb
           card_at].
      apply String.eqb_neq in Hu. rewrite Hu.
      cbn [negb py_join str_items py_iter all_str bind join].
      rewrite (last_char_spec c1 N1). reflexivity. }
    rewrite (analyze_hand_tokens c1 c2 N1 N2 Hu). cbn [bind].
    destruct Hin as [E | [E | Hin]]; [now subst | now subst |].
    unfold analyze_community, py_join, str_items.
    destruct cards as [| card cards]; [contradiction |].
    change (truthy (PList (map PStr (card :: cards)))) with true.
    cbn [py_iter bind]. rewrite all_str_map. cbn [bind].
    rewrite (two_known_tokens c1 c2 Hu). cbn [bind].
    unfold flush_text, all_cards.
    change ([PStr c1; PStr c2] ++ map PStr (card :: cards))%list
      with (map PStr (c1 :: c2 :: card :: cards)).
    rewrite all_str_map. cbn [bind].
    rewrite count_suits_tally, suits_of_empty_token by (now do 2 right).
    reflexivity. }
  split; [exact Hb |].
  unfold gto_tip, gto_tip_body. cbn [bind]. now rewrite Hb.
Qed.

Lemma build_gto_prompt_empty_token_witness :
  build_gto_prompt no_repr
    (PDict [("hand", PList [PStr "Ah"; PStr "Kd"]);
            ("community", PList [PStr "Qh"; PStr ""; PStr "2c"])])
  = Raise IndexError
  /\ gto_tip no_repr (answering PNone)
       (Ok (PDict [("hand", PList [PStr "Ah"; PStr "Kd"]);
                   ("community", PList [PStr "Qh"; PStr ""; PStr "2c"])]))
     = error_reply.
Proof.
  refine (build_gto_prompt_empty_token no_repr (answering PNone)
            [("hand", PList [PStr "Ah"; PStr "Kd"]);
             ("community", PList [PStr "Qh"; PStr ""; PStr "2c"])]
            "Ah" "Kd" ["Qh"; ""; "2c"] eq_refl _ eq_refl _).
  - discriminate.
  - cbn. auto.
Defined.

(** * Further properties of the hand analysis *)

Lemma spec_strength_sym (suited : bool) (r1 r2 : Z) :
  spec_strength suited r1 r2 = spec_strength suited r2 r1.
Proof.
  unfold spec_strength.
  replace (Z.abs (r2 - r1)) with (Z.abs (r1 - r2)) by lia.
  now rewrite (Z.max_comm r2 r1).
Qed.

(** X11: the order of the two hole cards changes the hand string only:
    type, strength and the connector flag are the same for [c1, c2] and
    [c2, c1]. *)
Theorem analyze_hand_order :
  forall c1 c2 : string,
    c1 <> "" -> c2 <> "" -> c1 <> "unknown" -> c2 <> "unknown" ->
    exists f1 f2,
      analyze_hand (PList [PStr c1; PStr c2]) = Ok f1
      /\ analyze_hand (PList [PStr c2; PStr c1]) = Ok f2
      /\ hand_type f1 = hand_type f2
      /\ hand_strength f1 = hand_strength f2
      /\ is_connected f1 = is_connected f2.
Proof.
  intros c1 c2 H1 H2 U1 U2.
  do 2 eexists. split; [now apply analyze_hand_tokens |].
  split; [now apply analyze_hand_tokens |].
  cbn [hand_type hand_strength is_connected].
  rewrite (String.eqb_sym (spec_suit c2) (spec_suit c1)).
  rewrite (spec_strength_sym _ (rank_get (spec_rank_text c2) rank_values)).
  replace (Z.abs (rank_get (spec_rank_text c2) rank_values
                  - rank_get (spec_rank_text c1) rank_values))
    with (Z.abs (rank_get (spec_rank_text c1) rank_values
                 - rank_get (spec_rank_text c2) rank_values)) by lia.
  auto.
Qed.

Lemma analyze_hand_order_witness :
  exists f1 f2,
    analyze_hand (PList [PStr "9h"; PStr "Jd"]) = Ok f1
    /\ analyze_hand (PList [PStr "Jd"; PStr "9h"]) = Ok f2
    /\ hand_type f1 = hand_type f2
    /\ hand_strength f1 = hand_strength f2
    /\ is_connected f1 = is_connected f2.
Proof.
  refine (analyze_hand_order "9h" "Jd" _ _ _ _); discriminate.
Defined.

Lemma rank_get_unrecognised (tok : string) :
  known_card tok = false -> rank_get (spec_rank_text tok) rank_values = 0.
Proof.
  unfold known_card, rank_values. cbn [existsb fst rank_get]. intro H.
  repeat (apply orb_false_iff in H as [?E H]).
  repeat match goal with
         | E : (_ =? _)%string = false |- _ => rewrite E; clear E
         end.
  reflexivity.
Qed.

(** X12: a rank text outside the table (a lower-case letter, "T" for ten,
    "1") counts as rank 0, so two hole cards with such ranks have gap 0: they
    are reported as connectors, "strong" when suited and "medium"
    otherwise. *)
Theorem analyze_hand_unrecognised_ranks :
  forall c1 c2 : string,
    c1 <> "" -> c2 <> "" -> c1 <> "unknown" ->
    known_card c1 = false -> known_card c2 = false ->
    analyze_hand (PList [PStr c1; PStr c2])
    = Ok {| hand_str := c1 ++ ", " ++ c2;
            hand_type := if (spec_suit c1 =? spec_suit c2)%string
                         then "suited" else "offsuit";
            hand_strength := if (spec_suit c1 =? spec_suit c2)%string
                             then "strong" else "medium";
            is_connected := Some true |}.
Proof.
  intros c1 c2 H1 H2 Hu K1 K2.
  rewrite (analyze_hand_tokens c1 c2 H1 H2 Hu).
  rewrite (rank_get_unrecognised c1 K1), (rank_get_unrecognised c2 K2).
  unfold spec_strength. cbn.
  now destruct (spec_suit c1 =? spec_suit c2)%string.
Qed.

Lemma analyze_hand_unrecognised_ranks_witness :
  analyze_hand (PList [PStr "Th"; PStr "td"])
  = Ok {| hand_str := "Th, td"; hand_type := "offsuit";
          hand_strength := "medium"; is_connected := Some true |}.
Proof.
  refine (analyze_hand_unrecognised_ranks "Th" "td" _ _ _ eq_refl eq_refl);
    discriminate.
Defined.

(** X13: two hole cards with the same rank text are never "weak": they are
    connectors, "strong" when the rank is Q, K or A or the suits agree, and
    "medium" otherwise. *)
Theorem analyze_hand_pair :
  forall c1 c2 : string,
    c1 <> "" -> c2 <> "" -> c1 <> "unknown" ->
    spec_rank_text c1 = spec_rank_text c2 ->
    exists facts,
      analyze_hand (PList [PStr c1; PStr c2]) = Ok facts
      /\ is_connected facts = Some true
      /\ hand_strength facts
         = if (12 <=? rank_get (spec_rank_text c1) rank_values)
              || (spec_suit c1 =? spec_suit c2)%string
           then "strong" else "medium".
Proof.
  intros c1 c2 H1 H2 Hu Hr.
  eexists. split; [now apply analyze_hand_tokens |].
  cbn [is_connected hand_strength]. rewrite <- Hr.
  unfold spec_strength. rewrite Z.sub_diag, Z.max_id. cbn [Z.abs Z.leb Z.compare].
  split; [reflexivity |].
  destruct (12 <=? rank_get (spec_rank_text c1) rank_values) eqn:E;
    cbn [orb]; [reflexivity |].
  destruct (spec_suit c1 =? spec_suit c2)%string; cbn [andb orb];
    [reflexivity |].
  now rewrite orb_true_r.
Qed.

Lemma analyze_hand_pair_witness :
  exists facts,
    analyze_hand (PList [PStr "2h"; PStr "2d"]) = Ok facts
    /\ is_connected facts = Some true
    /\ hand_strength facts = "medium".
Proof.
  refine (analyze_hand_pair "2h" "2d" _ _ _ eq_refl); discriminate.
Defined.

(** * Further properties of the remaining fields *)

Section AnyActions.

Variable repr_other : pyval -> string.

Lemma format_loop_any (actions : list pyval) :
  forall (i : nat) (formatted : list string),
    format_loop repr_other i actions formatted
    = (formatted
       ++ map (action_entry repr_other)
            (filter (fun ia => truthy (snd ia))
               (combine (seq i (List.length actions)) actions)))%list.
Proof.
  induction actions as [| a actions IH]; intros i formatted.
  - cbn. now rewrite app_nil_r.
  - cbn [format_loop List.length seq combine filter snd].
    rewrite IH. destruct (truthy a).
    + rewrite <- app_assoc. reflexivity.
    + reflexivity.
Qed.

End AnyActions.

(** X14: in a list of opponent actions every entry that is false in a
    truth test (null, "", 0, false, an empty list or object) is skipped but
    keeps its index, and every other entry is listed under its index as
    [str] renders it; with no entry left the text is "None". *)
Theorem format_opponent_actions_any :
  forall (repr_other : pyval -> string) (actions : list pyval),
    format_opponent_actions repr_other (PList actions)
    = Ok (match
             map (action_entry repr_other)
               (filter (fun ia => truthy (snd ia))
                  (combine (seq 0 (List.length actions)) actions))
           with
           | [] => "None"
           | entries => join "; " entries
           end).
Proof.
  intros repr_other actions.
  destruct actions as [| a actions]; [reflexivity |].
  unfold format_opponent_actions.
  change (truthy (PList (a :: actions))) with true.
  cbn [py_iter bind]. rewrite format_loop_any. cbn [app].
  now destruct (map _ _).
Qed.

(** X15: a hand field that is true in a truth test is never replaced by
    the default: a number or [true] makes [hand[0]] raise [TypeError], an
    object makes it raise [KeyError], whatever the other fields hold. *)
Theorem build_gto_prompt_malformed_hand :
  forall (repr_other : pyval -> string) (kvs : list (string * pyval))
         (v : pyval),
    lookup "hand" kvs = Some v ->
    truthy v = true ->
    match v with
    | PBool _ | PInt _ | PFloat _ =>
        build_gto_prompt repr_other (PDict kvs) = Raise TypeError
    | PDict _ => build_gto_prompt repr_other (PDict kvs) = Raise KeyError
    | _ => True
    end.
Proof.
  intros repr_other kvs v Hl Ht.
  destruct v; try exact I;
    unfold build_gto_prompt; cbn [py_get bind];
    rewrite Hl; unfold py_or; rewrite Ht; reflexivity.
Qed.

Lemma build_gto_prompt_malformed_hand_witness :
  build_gto_prompt no_repr
    (PDict [("pot", PInt 40); ("hand", PInt 7)]) = Raise TypeError
  /\ build_gto_prompt no_repr
       (PDict [("hand", PDict [("first", PStr "As")])]) = Raise KeyError.
Proof.
  split.
  - exact (build_gto_prompt_malformed_hand no_repr
             [("pot", PInt 40); ("hand", PInt 7)] (PInt 7)
             eq_refl eq_refl).
  - exact (build_gto_prompt_malformed_hand no_repr
             [("hand", PDict [("first", PStr "As")])]
             (PDict [("first", PStr "As")]) eq_refl eq_refl).
Defined.

(** * Further properties of the relay *)

Lemma prefix_nil (s : string) : prefix "" s = true.
Proof. now destruct s. Qed.

Lemma prefix_single (c d : ascii) (s : string) :
  prefix (String c EmptyString) (String d s)
  = if ascii_dec c d then true else false.
Proof. cbn [prefix]. destruct (ascii_dec c d); [apply prefix_nil | reflexivity]. Qed.

Lemma contains_single (c : ascii) (s : string) :
  contains (String c EmptyString) s = has_char c s.
Proof.
  induction s as [| d s IH]; [reflexivity |].
  now rewrite contains_cons, IH, prefix_single.
Qed.

Lemma replace_single_go (c a : ascii) (s : string) :
  has_char a (replace_go (String c EmptyString) "" 0 s)
  = has_char a s && (if ascii_dec c a then false else true).
Proof.
  induction s as [| d s IH]; [reflexivity |].
  cbn [replace_go String.length Nat.sub]. rewrite prefix_single.
  destruct (ascii_dec c d) as [-> | Hcd].
  - cbn [append has_char]. rewrite IH.
    destruct (ascii_dec a d) as [-> | Had].
    + destruct (ascii_dec d d); [| contradiction].
      now rewrite andb_false_r.
    + destruct (ascii_dec d a); [now subst |]. reflexivity.
  - cbn [has_char]. rewrite IH.
    destruct (ascii_dec a d) as [-> | Had]; cbn [orb].
    + now destruct (ascii_dec c d).
    + reflexivity.
Qed.

Lemma replace_single (c a : ascii) (s : string) :
  has_char a (replace (String c EmptyString) "" s)
  = has_char a s && (if ascii_dec c a then false else true).
Proof. apply replace_single_go. Qed.

Lemma has_char_lstrip (a : ascii) (s : string) :
  has_char a s = false -> has_char a (lstrip s) = false.
Proof.
  induction s as [| d s IH]; [reflexivity |].
  intro H. cbn [lstrip]. destruct (isspace d); [| exact H].
  cbn [has_char] in H. apply orb_false_iff in H as [_ H]. now apply IH.
Qed.

Lemma has_char_rstrip (a : ascii) (s : string) :
  has_char a s = false -> has_char a (rstrip s) = false.
Proof.
  induction s as [| d s IH]; [reflexivity |].
  cbn [has_char]. intro H. apply orb_false_iff in H as [Hd H].
  specialize (IH H). cbn [rstrip].
  destruct (rstrip s) as [| e r].
  - destruct (isspace d); [reflexivity |].
    cbn [has_char]. now rewrite Hd.
  - cbn [has_char] in *. now rewrite Hd, IH.
Qed.

Lemma has_char_strip (a : ascii) (s : string) :
  has_char a s = false -> has_char a (strip s) = false.
Proof. intro H. now apply has_char_rstrip, has_char_lstrip. Qed.

Lemma rstrip_last (s : string) :
  match last_char (rstrip s) with
  | Ok (String d _) => negb (isspace d)
  | _ => true
  end = true.
Proof.
  induction s as [| c s IH]; [reflexivity |].
  cbn [rstrip]. destruct (rstrip s) as [| d r].
  - destruct (isspace c) eqn:E; [reflexivity |]. cbn. now rewrite E.
  - exact IH.
Qed.

Lemma lstrip_head (s : string) :
  match lstrip s with
  | EmptyString => true
  | String c _ => negb (isspace c)
  end = true.
Proof.
  induction s as [| c s IH]; [reflexivity |].
  cbn [lstrip]. destruct (isspace c) eqn:E; [exact IH |]. now rewrite E.
Qed.

Lemma trimmed_strip (s : string) : trimmed (strip s) = true.
Proof.
  unfold strip. pose proof (lstrip_head s) as Hh.
  pose proof (rstrip_last (lstrip s)) as Hl.
  destruct (lstrip s) as [| c t]; [reflexivity |].
  cbn [rstrip] in *.
  destruct (rstrip t) as [| d r].
  - apply negb_true_iff in Hh. rewrite Hh in *. cbn. now rewrite Hh.
  - unfold trimmed. now rewrite Hh, Hl.
Qed.

Lemma strip_tags_no_angle (tip : string) :
  contains "<" (strip_tags tip) = false
  /\ contains ">" (strip_tags tip) = false
  /\ trimmed (strip_tags tip) = true.
Proof.
  rewrite strip_tags_unfold, !contains_single.
  repeat split.
  - apply has_char_strip. rewrite replace_single.
    rewrite has_char_strip; [reflexivity |].
    rewrite replace_single.
    destruct (ascii_dec "<" "<"); [apply andb_false_r | contradiction].
  - apply has_char_strip. rewrite replace_single.
    destruct (ascii_dec ">" ">"); [apply andb_false_r | contradiction].
  - apply trimmed_strip.
Qed.

Lemma gto_tip_body_ok (repr_other : pyval -> string)
  (post : string -> payload -> result response) (get_json : result pyval)
  (tip : string) :
  gto_tip_body repr_other post get_json = Ok tip ->
  exists text, tip = clean_tip text.
Proof.
  unfold gto_tip_body.
  destruct get_json as [data | e]; cbn [bind]; [| discriminate].
  destruct (build_gto_prompt repr_other data); cbn [bind]; [| discriminate].
  destruct (post _ _); cbn [bind]; [| discriminate].
  destruct (raise_for_status _); cbn [bind]; [| discriminate].
  destruct (response_json _); cbn [bind]; [| discriminate].
  destruct (extract_tip _) as [text | e]; cbn [bind]; [| discriminate].
  intro H. injection H as <-. now exists text.
Qed.

(** X16: the tip of a 200 reply never contains the character "<" or ">"
    and has no white space at either end, whatever the backend sent. *)
Theorem gto_tip_no_angle_brackets :
  forall (repr_other : pyval -> string)
         (post : string -> payload -> result response)
         (get_json : result pyval) (tip : string),
    gto_tip repr_other post get_json = tip_reply tip ->
    contains "<" tip = false
    /\ contains ">" tip = false
    /\ trimmed tip = true.
Proof.
  intros repr_other post get_json tip. unfold gto_tip.
  destruct (gto_tip_body repr_other post get_json) as [t | e] eqn:Hb;
    [| discriminate].
  intro H. injection H as <-.
  destruct (gto_tip_body_ok _ _ _ _ Hb) as [text ->].
  apply strip_tags_no_angle.
Qed.

Lemma gto_tip_no_angle_brackets_witness :
  contains "<" "bRaise/b now" = false
  /\ contains ">" "bRaise/b now" = false
  /\ trimmed "bRaise/b now" = true.
Proof.
  exact (gto_tip_no_angle_brackets no_repr
           (answering
              (PDict [("choices",
                       PList [PDict [("text",
                                      PStr " <b>Raise</b> now ")]])]))
           (Ok two_aces) "bRaise/b now" eq_refl).
Defined.

(** X17: a first choice whose text is empty or white space only gives a
    200 reply with the placeholder tip. *)
Theorem gto_tip_blank_text :
  forall (repr_other : pyval -> string)
         (post : string -> payload -> result response)
         (data : pyval) (prompt : string) (r : response)
         (kvs first : list (string * pyval)) (rest : list pyval)
         (text : string),
    build_gto_prompt repr_other data = Ok prompt ->
    post SERVER_URL (mk_payload prompt) = Ok r ->
    raise_for_status r = Ok tt ->
    json_body r = Some (PDict kvs) ->
    lookup "choices" kvs = Some (PList (PDict first :: rest)) ->
    lookup "text" first = Some (PStr text) ->
    strip text = "" ->
    gto_tip repr_other post (Ok data) = tip_reply "No tip generated.".
Proof.
  intros repr_other post data prompt r kvs first rest text
    Hb Hp Hs Hj Hc Ht Hblank.
  rewrite (gto_tip_after_backend repr_other post data prompt r (PDict kvs))
    by assumption.
  unfold extract_tip. cbn [py_get bind]. rewrite Hc.
  cbn [py_item nth_error bind py_get]. rewrite Ht, Hblank. reflexivity.
Qed.

Lemma gto_tip_blank_text_witness :
  gto_tip no_repr
    (answering (PDict [("choices", PList [PDict [("text", PStr "  ")]])]))
    (Ok two_aces)
  = tip_reply "No tip generated.".
Proof.
  pose (prompt :=
          match build_gto_prompt no_repr two_aces with
          | Ok p => p
          | Raise _ => ""
          end).
  exact (gto_tip_blank_text no_repr
           (answering (PDict [("choices", PList [PDict [("text", PStr "  ")]])]))
           two_aces prompt _ _ [("text", PStr "  ")] [] "  "
           eq_refl eq_refl eq_refl eq_refl eq_refl eq_refl eq_refl).
Defined.

(** X18: a first choice whose text is present but not a string (null, a
    number, a list) has no [strip]: the extraction raises [AttributeError]
    and the caller gets the generic 500 reply, not the placeholder. *)
Theorem gto_tip_text_not_str :
  forall (repr_other : pyval -> string)
         (post : string -> payload -> result response)
         (data : pyval) (prompt : string) (r : response)
         (kvs first : list (string * pyval)) (rest : list pyval)
         (v : pyval),
    build_gto_prompt repr_other data = Ok prompt ->
    post SERVER_URL (mk_payload prompt) = Ok r ->
    raise_for_status r = Ok tt ->
    json_body r = Some (PDict kvs) ->
    lookup "choices" kvs = Some (PList (PDict first :: rest)) ->
    lookup "text" first = Some v ->
    (forall s, v <> PStr s) ->
    extract_tip (PDict kvs) = Raise AttributeError
    /\ gto_tip repr_other post (Ok data) = error_reply.
Proof.
  intros repr_other post data prompt r kvs first rest v
    Hb Hp Hs Hj Hc Ht Hv.
  assert (He : extract_tip (PDict kvs) = Raise AttributeError).
  { unfold extract_tip. cbn [py_get bind]. rewrite Hc.
    cbn [py_item nth_error bind py_get]. rewrite Ht.
    destruct v; try reflexivity. now elim (Hv s). }
  split; [exact He |].
  rewrite (gto_tip_after_backend repr_other post data prompt r (PDict kvs))
    by assumption.
  now rewrite He.
Qed.

Lemma gto_tip_text_not_str_witness :
  extract_tip (PDict [("choices", PList [PDict [("text", PNone)]])])
  = Raise AttributeError
  /\ gto_tip no_repr
       (answering (PDict [("choices", PList [PDict [("text", PNone)]])]))
       (Ok two_aces)
     = error_reply.
Proof.
  pose (prompt :=
          match build_gto_prompt no_repr two_aces with
          | Ok p => p
          | Raise _ => ""
          end).
  refine (gto_tip_text_not_str no_repr
            (answering (PDict [("choices", PList [PDict [("text", PNone)]])]))
            two_aces prompt _ _ [("text", PNone)] [] PNone
            eq_refl eq_refl eq_refl eq_refl eq_refl eq_refl _).
  intros s H. discriminate H.
Defined.

(** * The text of the prompt *)

Lemma prefix_self (x r : string) : prefix x (x ++ r) = true.
Proof.
  induction x as [| c x IH]; [apply prefix_nil |].
  cbn [append prefix]. destruct (ascii_dec c c); [exact IH | contradiction].
Qed.

Lemma prefix_cancel (a x y : string) :
  prefix x y = true -> prefix (a ++ x) (a ++ y) = true.
Proof.
  intro H. induction a as [| c a IH]; [exact H |].
  cbn [append prefix]. destruct (ascii_dec c c); [exact IH | contradiction].
Qed.

Lemma contains_prefix (x y : string) :
  prefix x y = true -> contains x y = true.
Proof. intro H. destruct y; cbn [contains]; now rewrite H. Qed.

Lemma contains_app_r (x a y : string) :
  contains x y = true -> contains x (a ++ y) = true.
Proof.
  intro H. induction a as [| c a IH]; [exact H |].
  cbn [append]. rewrite contains_cons, IH. apply orb_true_r.
Qed.

Ltac find_line :=
  repeat first
    [ solve [ apply contains_prefix; repeat apply prefix_cancel;
              apply prefix_self ]
    | apply contains_app_r ].

Section PromptText.

Variable repr_other : pyval -> string.

(** A returned prompt is the text of the f-string for the results of the
    three analyses and the scalar fields. *)
Lemma build_gto_prompt_inv (kvs : list (string * pyval)) (p : string) :
  build_gto_prompt repr_other (PDict kvs) = Ok p ->
  exists facts cs fp oas,
    analyze_hand (hand_of kvs) = Ok facts
    /\ analyze_community (hand_of kvs) (community_of kvs) = Ok (cs, fp)
    /\ format_opponent_actions repr_other (opponents_of kvs) = Ok oas
    /\ template repr_other facts cs fp oas
         (field_of kvs "stage" (PStr "Unknown"))
         (field_of kvs "position" (PStr "SB"))
         (field_of kvs "pot" (PInt 0))
         (field_of kvs "chips" (PInt 0))
         (field_of kvs "current_bet" (PInt 0))
         (field_of kvs "num_players" (PInt 2)) = Ok p.
Proof.
  unfold build_gto_prompt, hand_of, community_of, opponents_of, field_of.
  cbn [py_get bind].
  destruct (analyze_hand _) as [facts | e]; cbn [bind]; [| discriminate].
  destruct (analyze_community _ _) as [[cs fp] | e]; cbn [bind];
    [| discriminate].
  destruct (format_opponent_actions _ _) as [oas | e]; cbn [bind];
    [| discriminate].
  destruct (template _ _ _ _ _ _ _ _ _ _ _) as [text | e] eqn:Ht;
    cbn [bind]; [| discriminate].
  intro H. apply Ok_inj in H.
  destruct (template_shape _ _ _ _ _ _ _ _ _ _ _ _ Ht) as (_ & _ & Hs).
  rewrite Hs in H. subst p.
  exists facts, cs, fp, oas. auto.
Qed.

Lemma scalar_lines (facts : hand_facts) (cs fp oas : string)
  (stage position pot chips current_bet num_players : pyval) (p : string) :
  template repr_other facts cs fp oas stage position pot chips current_bet
    num_players = Ok p ->
  contains ("- Stage: " ++ py_str repr_other stage ++ nl) p = true
  /\ contains ("- Position: " ++ py_str repr_other position ++ nl) p = true
  /\ contains ("- Pot size: " ++ py_str repr_other pot ++ nl) p = true
  /\ contains ("- Your chips: " ++ py_str repr_other chips ++ nl) p = true
  /\ contains ("- Current bet to call: " ++ py_str repr_other current_bet
               ++ nl) p = true
  /\ contains ("- Number of players: " ++ py_str repr_other num_players
               ++ nl) p = true.
Proof.
  unfold template. destruct (is_connected facts); [| discriminate].
  intro H. apply Ok_inj in H. subst p.
  repeat split; find_line.
Qed.

Lemma analysis_lines (facts : hand_facts) (cs fp oas : string)
  (stage position pot chips current_bet num_players : pyval) (p : string) :
  template repr_other facts cs fp oas stage position pot chips current_bet
    num_players = Ok p ->
  exists connected,
    is_connected facts = Some connected
    /\ contains ("- Your hand: " ++ hand_str facts ++ " (" ++ hand_type facts
                 ++ ", " ++ hand_strength facts ++ " "
                 ++ (if connected then "connector" else "non-connector")
                 ++ ")" ++ nl) p = true
    /\ contains ("- Community cards: " ++ cs ++ " (" ++ fp ++ ")" ++ nl) p
       = true
    /\ contains ("- Opponent actions: " ++ oas ++ nl) p = true.
Proof.
  unfold template. destruct (is_connected facts) as [connected |];
    [| discriminate].
  intro H. apply Ok_inj in H. subst p.
  exists connected. repeat split; find_line.
Qed.

End PromptText.

(** X4: the prompt that is returned is the text of the f-string itself,
    which the final [strip] leaves unchanged: it is the template filled
    with the results of the three analyses and the scalar fields, it begins
    with the line "/no_think" and it ends with the line "/no_think". *)
Theorem build_gto_prompt_markers :
  forall (repr_other : pyval -> string) (data : pyval) (p : string),
    build_gto_prompt repr_other data = Ok p ->
    exists kvs facts cs fp oas,
      data = PDict kvs
      /\ analyze_hand (hand_of kvs) = Ok facts
      /\ analyze_community (hand_of kvs) (community_of kvs) = Ok (cs, fp)
      /\ format_opponent_actions repr_other (opponents_of kvs) = Ok oas
      /\ template repr_other facts cs fp oas
           (field_of kvs "stage" (PStr "Unknown"))
           (field_of kvs "position" (PStr "SB"))
           (field_of kvs "pot" (PInt 0))
           (field_of kvs "chips" (PInt 0))
           (field_of kvs "current_bet" (PInt 0))
           (field_of kvs "num_players" (PInt 2)) = Ok p
      /\ prefix ("/no_think" ++ nl) p = true
      /\ exists front, p = front ++ nl ++ "/no_think".
Proof.
  intros repr_other data p H.
  destruct data as [| b | z | f | s | l | kvs]; try discriminate H.
  destruct (build_gto_prompt_inv repr_other kvs p H)
    as (facts & cs & fp & oas & Ha & Hc & Ho & Ht).
  destruct (template_shape _ _ _ _ _ _ _ _ _ _ _ _ Ht) as (Hp & He & _).
  exists kvs, facts, cs, fp, oas. auto 10.
Qed.

Lemma build_gto_prompt_markers_witness :
  exists p,
    build_gto_prompt no_repr two_aces = Ok p
    /\ exists kvs facts cs fp oas,
         two_aces = PDict kvs
         /\ analyze_hand (hand_of kvs) = Ok facts
         /\ analyze_community (hand_of kvs) (community_of kvs) = Ok (cs, fp)
         /\ format_opponent_actions no_repr (opponents_of kvs) = Ok oas
         /\ template no_repr facts cs fp oas
              (field_of kvs "stage" (PStr "Unknown"))
              (field_of kvs "position" (PStr "SB"))
              (field_of kvs "pot" (PInt 0))
              (field_of kvs "chips" (PInt 0))
              (field_of kvs "current_bet" (PInt 0))
              (field_of kvs "num_players" (PInt 2)) = Ok p
         /\ prefix ("/no_think" ++ nl) p = true
         /\ exists front, p = front ++ nl ++ "/no_think".
Proof.
  eexists. split; [reflexivity |].
  exact (build_gto_prompt_markers no_repr two_aces _ eq_refl).
Defined.

(** X19: in every returned prompt each of stage, position, pot, chips and
    current bet has its line carrying [str] of the value stored under its
    key, and the number of players has its line too; a missing key prints
    the default (Unknown, SB, 0, 0, 0, 2), while a stored null prints as
    "None" since only a missing key is defaulted. *)
Theorem build_gto_prompt_scalar_lines :
  forall (repr_other : pyval -> string) (kvs : list (string * pyval))
         (p : string),
    build_gto_prompt repr_other (PDict kvs) = Ok p ->
    contains ("- Stage: "
              ++ py_str repr_other (field_of kvs "stage" (PStr "Unknown"))
              ++ nl) p = true
    /\ contains ("- Position: "
                 ++ py_str repr_other (field_of kvs "position" (PStr "SB"))
                 ++ nl) p = true
    /\ contains ("- Pot size: "
                 ++ py_str repr_other (field_of kvs "pot" (PInt 0))
                 ++ nl) p = true
    /\ contains ("- Your chips: "
                 ++ py_str repr_other (field_of kvs "chips" (PInt 0))
                 ++ nl) p = true
    /\ contains ("- Current bet to call: "
                 ++ py_str repr_other (field_of kvs "current_bet" (PInt 0))
                 ++ nl) p = true
    /\ contains ("- Number of players: "
                 ++ py_str repr_other (field_of kvs "num_players" (PInt 2))
                 ++ nl) p = true.
Proof.
  intros repr_other kvs p H.
  destruct (build_gto_prompt_inv repr_other kvs p H)
    as (facts & cs & fp & oas & _ & _ & _ & Ht).
  exact (scalar_lines repr_other _ _ _ _ _ _ _ _ _ _ _ Ht).
Qed.

Lemma build_gto_prompt_scalar_lines_witness :
  exists p,
    build_gto_prompt no_repr
      (PDict [("hand", PList [PStr "As"; PStr "Ah"]);
              ("pot", PNone); ("stage", PStr "Flop"); ("chips", PInt 950)])
    = Ok p
    /\ contains ("- Stage: Flop" ++ nl) p = true
    /\ contains ("- Position: SB" ++ nl) p = true
    /\ contains ("- Pot size: None" ++ nl) p = true
    /\ contains ("- Your chips: 950" ++ nl) p = true
    /\ contains ("- Current bet to call: 0" ++ nl) p = true
    /\ contains ("- Number of players: 2" ++ nl) p = true.
Proof.
  eexists. split; [reflexivity |].
  exact (build_gto_prompt_scalar_lines no_repr
           [("hand", PList [PStr "As"; PStr "Ah"]);
            ("pot", PNone); ("stage", PStr "Flop"); ("chips", PInt 950)]
           _ eq_refl).
Defined.

(** X20: every returned prompt carries the results of the three analyses:
    the hand line with hand string, type, strength and connector label, the
    community line with the community string and the flush text in
    brackets, and the line of the formatted opponent actions. *)
Theorem build_gto_prompt_analysis_lines :
  forall (repr_other : pyval -> string) (kvs : list (string * pyval))
         (p : string),
    build_gto_prompt repr_other (PDict kvs) = Ok p ->
    exists facts connected cs fp oas,
      analyze_hand (hand_of kvs) = Ok facts
      /\ is_connected facts = Some connected
      /\ analyze_community (hand_of kvs) (community_of kvs) = Ok (cs, fp)
      /\ format_opponent_actions repr_other (opponents_of kvs) = Ok oas
      /\ contains ("- Your hand: " ++ hand_str facts ++ " ("
                   ++ hand_type facts ++ ", " ++ hand_strength facts ++ " "
                   ++ (if connected then "connector" else "non-connector")
                   ++ ")" ++ nl) p = true
      /\ contains ("- Community cards: " ++ cs ++ " (" ++ fp ++ ")" ++ nl) p
         = true
      /\ contains ("- Opponent actions: " ++ oas ++ nl) p = true.
Proof.
  intros repr_other kvs p H.
  destruct (build_gto_prompt_inv repr_other kvs p H)
    as (facts & cs & fp & oas & Ha & Hc & Ho & Ht).
  destruct (analysis_lines repr_other _ _ _ _ _ _ _ _ _ _ _ Ht)
    as (connected & Hi & L1 & L2 & L3).
  exists facts, connected, cs, fp, oas. auto 10.
Qed.

Lemma build_gto_prompt_analysis_lines_witness :
  exists p,
    build_gto_prompt no_repr
      (PDict [("hand", PList [PStr "Ah"; PStr "Kh"]);
              ("community", PList [PStr "Qh"; PStr "Jh"; PStr "2c"]);
              ("opponent_actions", PList [PStr "raise"; PStr ""])])
    = Ok p
    /\ exists facts connected cs fp oas,
         analyze_hand (PList [PStr "Ah"; PStr "Kh"]) = Ok facts
         /\ is_connected facts = Some connected
         /\ analyze_community (PList [PStr "Ah"; PStr "Kh"])
              (PList [PStr "Qh"; PStr "Jh"; PStr "2c"]) = Ok (cs, fp)
         /\ format_opponent_actions no_repr (PList [PStr "raise"; PStr ""])
            = Ok oas
         /\ contains ("- Your hand: " ++ hand_str facts ++ " ("
                      ++ hand_type facts ++ ", " ++ hand_strength facts
                      ++ " "
                      ++ (if connected then "connector" else "non-connector")
                      ++ ")" ++ nl) p = true
         /\ contains ("- Community cards: " ++ cs ++ " (" ++ fp ++ ")" ++ nl)
              p = true
         /\ contains ("- Opponent actions: " ++ oas ++ nl) p = true.
Proof.
  eexists. split; [reflexivity |].
  exact (build_gto_prompt_analysis_lines no_repr
           [("hand", PList [PStr "Ah"; PStr "Kh"]);
            ("community", PList [PStr "Qh"; PStr "Jh"; PStr "2c"]);
            ("opponent_actions", PList [PStr "raise"; PStr ""])]
           _ eq_refl).
Defined.
